(** * Copper SX optimizer: the calculation engine of [src/App.jsx]

    A shallow embedding of the numerical core of the application: the secant
    root finder [solve], Cardan's cubic solver [solveCubic], the two isotherm
    mappings, the extraction and stripping simulators, [calculateAll], and the
    outer search of [runSolver]; and of the state of the component [App]
    around it: [handleInputChange], the setters of [runSolver] and what is
    rendered of the state.

    The program computes on JavaScript Numbers.  Every definition of the
    engine is written once, over an interface [Number] of the operations the
    source applies to Numbers; the program runs in [FloatNumber], IEEE 754
    binary64 ([PrimFloat]) with NaN and the infinities.  The [Math] functions
    that ECMAScript leaves implementation-approximated ([Math.pow],
    [Math.cbrt], [Math.acos], [Math.cos]) are a parameter, [MathLib];
    [RefMath] is one such library, used to run the engine on concrete
    inputs.  A theorem stated over [Number] holds of binary64 with every
    [Math] library; a theorem that needs the order or the NaN of binary64 is
    stated on [FloatNumber M], for every [M]. *)

From Stdlib Require Import ZArith QArith Floats Lia.
From Stdlib Require Import List String Bool.
Import ListNotations.

Set Warnings "-inexact-float".

(** ** JavaScript Numbers *)

(** The operations [src/App.jsx] applies to Numbers.  [lit q] is the Number
    written by the decimal literal [q]; [x >= y] is [leb y x] and [x > y] is
    [ltb y x], as IEEE 754 defines them. *)
Class Number (T : Type) : Type := {
  lit : Q -> T;
  NaN : T;
  add : T -> T -> T;
  sub : T -> T -> T;
  mul : T -> T -> T;
  div : T -> T -> T;
  neg : T -> T;
  ltb : T -> T -> bool;
  leb : T -> T -> bool;
  isNaN : T -> bool;
  isFinite : T -> bool;
  Math_abs : T -> T;
  Math_sqrt : T -> T;
  Math_cbrt : T -> T;
  Math_pow : T -> T -> T;
  Math_acos : T -> T;
  Math_cos : T -> T
}.

Arguments lit {T _} q%_Q.

Declare Scope js_scope.
Delimit Scope js_scope with js.
Infix "+" := add : js_scope.
Infix "-" := sub : js_scope.
Infix "*" := mul : js_scope.
Infix "/" := div : js_scope.
Notation "- x" := (neg x) : js_scope.
Infix "<?" := ltb : js_scope.
Infix "<=?" := leb : js_scope.
Notation "x >=? y" := (leb y x) (at level 70, only parsing) : js_scope.
Notation "x >? y" := (ltb y x) (at level 70, only parsing) : js_scope.

(** The values a calculation of the engine can return: a Number,
    [undefined] (the bare [return;] of [solveCubic]) or [null]. *)
Inductive jsval (T : Type) : Type :=
| JNum (v : T)
| JUndefined
| JNull.

Arguments JNum {T} v.
Arguments JUndefined {T}.
Arguments JNull {T}.

(** ** Exceptions *)

(** The errors the engine throws ([new Error(message)]), by throw site:
    - [DivergedError]: [solve], a candidate that is NaN, not finite or [<= 0];
    - [NotConvergedError n]: [solve], after [n] iterations;
    - [OutOfRangeError]: [runSolver], an optimum outside (0, 50];
    - [ModelInconsistencyError]: the stripping calculation, [lo <= so_ex]. *)
Inductive Error : Type :=
| DivergedError
| NotConvergedError (maxIterations : nat)
| OutOfRangeError
| ModelInconsistencyError.

Inductive exc (A : Type) : Type :=
| Return (a : A)
| Throw (e : Error).

Arguments Return {A} a.
Arguments Throw {A} e.

Definition bind {A B : Type} (c : exc A) (k : A -> exc B) : exc B :=
  match c with
  | Return a => k a
  | Throw e => Throw e
  end.

Notation "x <- c ;; k" := (bind c (fun x => k))
  (at level 61, c at next level, right associativity).

(** ** The engine, over any arithmetic *)

Section Engine.

Context {T : Type} {num : Number T}.
Local Open Scope js_scope.

(** ToNumber: the coercion an arithmetic operator or a comparison applies to
    an operand. *)
Definition to_num (v : jsval T) : T :=
  match v with
  | JNum x => x
  | JUndefined => NaN
  | JNull => lit 0
  end.

(** *** [solve] (App.jsx, lines 48-68) *)

(** The [for] loop, [fuel] iterations left; falling out of the loop is the
    [throw] of line 67, which [solve] below fills with [maxIterations]. *)
Fixpoint solve_loop (objectiveFunc : T -> T) (tolerance : T) (maxIterations : nat)
    (fuel : nat) (x0 f0 x1 f1 : T) : exc T :=
  match fuel with
  | O => Throw (NotConvergedError maxIterations)
  | S fuel' =>
      if Math_abs f1 <? tolerance then Return x1
      else
        let x2 := x1 - f1 * (x1 - x0) / (f1 - f0) in
        if isNaN x2 || negb (isFinite x2) || (x2 <=? lit 0)
        then Throw DivergedError
        else solve_loop objectiveFunc tolerance maxIterations fuel'
               x1 f1 x2 (objectiveFunc x2)
  end.

Definition solve (objectiveFunc : T -> T) (initialGuess : T)
    (tolerance : T) (maxIterations : nat) : exc T :=
  let x0 := initialGuess - lit 0.1 in
  let x1 := initialGuess + lit 0.1 in
  let x0 := if x0 <=? lit 0 then lit 0.1 else x0 in
  let f0 := objectiveFunc x0 in
  let f1 := objectiveFunc x1 in
  solve_loop objectiveFunc tolerance maxIterations maxIterations x0 f0 x1 f1.

(** *** [solveCubic] (App.jsx, lines 361-380) *)

Definition solveCubic (a b c d : T) : jsval T :=
  if Math_abs a <? lit 1e-9 then JUndefined
  else
    let p := c / a - (b * b) / (lit 3 * a * a) in
    let q := (lit 2 * b * b * b) / (lit 27 * a * a * a)
             - (b * c) / (lit 3 * a * a) + d / a in
    let term1 := q / lit 2 in
    let term2 := (q * q) / lit 4 + (p * p * p) / lit 27 in
    if term2 >=? lit 0 then
      let sqrt_term2 := Math_sqrt term2 in
      let u := Math_cbrt (- term1 + sqrt_term2) in
      let v := Math_cbrt (- term1 - sqrt_term2) in
      JNum (u + v - b / (lit 3 * a))
    else
      let r := Math_sqrt (- (p * p * p) / lit 27) in
      let phi := Math_acos (- q / (lit 2 * r)) in
      let root1 := lit 2 * Math_cbrt r * Math_cos (phi / lit 3) - b / (lit 3 * a) in
      JNum root1.

(** *** Data (App.jsx, lines 9-22 and the objects [calculateAll] builds) *)

Record ProcessInputs : Type := {
  plsFlow : T;
  plsCu : T;
  plsAcid : T;
  percentageML : T;
  o_a_ex : T;
  effE1 : T;
  effE2 : T;
  spCu : T;
  spAcid : T;
  adCu : T;
  effS1 : T;
  effS2 : T
}.

(** [{ x, y }]: a point of a McCabe-Thiele diagram. *)
Record Point : Type := { x : jsval T; y : jsval T }.

(** [{ name, x, y }]: an end of the operating line, or a stage marker. *)
Record NamedPoint : Type := { name : string; nx : T; ny : T }.

Record McCabeThiele : Type := {
  equilibriumCurve : list Point;
  operatingLine : list NamedPoint;
  stages : list NamedPoint
}.

Record StageRecord : Type := {
  A : Point;
  B : Point;
  C : Point;
  D : Point;
  efficiency : T
}.

Record ExtractionDetails : Type := {
  raffAcid : T;
  ex_stage1 : StageRecord;
  ex_stage2 : StageRecord
}.

Record ExtractionResult : Type := {
  ml : jsval T;
  lo : T;
  ex_so : T;
  raff : T;
  ex_recovery : T;
  ex_mccabeThiele : McCabeThiele;
  ex_details : ExtractionDetails
}.

Record StrippingDetails : Type := {
  o_a_st : T;
  st_stage1 : StageRecord;
  st_stage2 : StageRecord
}.

Record StrippingResult : Type := {
  st_so : T;
  st_recovery : T;
  netCu : T;
  st_mccabeThiele : McCabeThiele;
  st_details : StrippingDetails
}.

Record Constraints : Type := { so_consistency : T }.

Record Result : Type := {
  v_percent : T;
  extraction_of : ExtractionResult;
  stripping_of : StrippingResult;
  constraints : Constraints
}.

(** The initial state of the form (lines 9-22): "Table 17 from the PDF". *)
Definition initial_inputs : ProcessInputs :=
  {| plsFlow := lit 400;
     plsCu := lit 7.0;
     plsAcid := lit 1.96;
     percentageML := lit 80;
     o_a_ex := lit 1.25;
     effE1 := lit 95;
     effE2 := lit 95;
     spCu := lit 35;
     spAcid := lit 190;
     adCu := lit 50;
     effS1 := lit 98;
     effS2 := lit 98 |}.

(** The [constants] object of each circuit. *)
Record ExConstants : Type := {
  a_ex : T; b_ex : T; c_ex : T; d_ex : T; e_ex : T; f_ex : T
}.

Record StConstants : Type := {
  a_st : T; b_st : T; c_st : T; d_st : T; e_st : T; f_st : T
}.

Definition pt (px py : T) : Point := {| x := JNum px; y := JNum py |}.

(** [Array.from({ length: n }, (_, k) => f(k))] *)
Definition Array_from {E : Type} (n : nat) (f : T -> E) : list E :=
  map (fun k => f (lit (inject_Z (Z.of_nat k)))) (seq 0 n).

(** [p.y >= 0], for a [y] that may be [undefined] or [null]. *)
Definition y_nonneg (p : Point) : bool := to_num (y p) >=? lit 0.

(** *** The extraction circuit (App.jsx, lines 383-481) *)

Definition extraction_constants (i : ProcessInputs) (V_percent : T) : ExConstants :=
  {| a_ex := plsAcid i + lit 1.54 * plsCu i;
     b_ex := lit (-1.54);
     c_ex := lit 3.303 * V_percent;
     d_ex := lit (-3.0842);
     e_ex := lit (-25.698) * Math_pow V_percent (lit (-1.704));
     f_ex := lit 10.663 * Math_pow V_percent (lit (-0.608)) |}.

Definition getCu_or_from_Cu_aq (constants : ExConstants) (Cu_aq : T) : jsval T :=
  if Cu_aq <=? lit 0 then JNum (lit 0)
  else
    let g_ex := Math_pow (a_ex constants + b_ex constants * Cu_aq) (lit 2) / Cu_aq in
    let alpha_ex :=
      (lit 2 * c_ex constants * d_ex constants * e_ex constants
       + Math_pow (d_ex constants) (lit 2) * f_ex constants)
      / (Math_pow (d_ex constants) (lit 2) * e_ex constants) in
    let lambda_ex :=
      (lit 2 * c_ex constants * d_ex constants * f_ex constants
       + Math_pow (c_ex constants) (lit 2) * e_ex constants - g_ex)
      / (Math_pow (d_ex constants) (lit 2) * e_ex constants) in
    let epsilon_ex :=
      (f_ex constants * Math_pow (c_ex constants) (lit 2))
      / (Math_pow (d_ex constants) (lit 2) * e_ex constants) in
    let Y := solveCubic (lit 1) alpha_ex lambda_ex epsilon_ex in
    Y.

(** Every use of the argument is numeric, so the function is given the
    Number [to_num] makes of it. *)
Definition getCu_aq_from_Cu_or (constants : ExConstants) (Cu_or : T) : jsval T :=
  if Cu_or <=? lit 0 then JNum (lit 0)
  else
    let h_ex :=
      ((e_ex constants * Cu_or + f_ex constants)
       * Math_pow (c_ex constants + d_ex constants * Cu_or) (lit 2)) / Cu_or in
    let a := Math_pow (b_ex constants) (lit 2) in
    let b := lit 2 * a_ex constants * b_ex constants - h_ex in
    let c := Math_pow (a_ex constants) (lit 2) in
    let discriminant := b * b - lit 4 * a * c in
    if discriminant <? lit 0 then JNull
    else
      JNum ((h_ex - lit 2 * a_ex constants * b_ex constants - Math_sqrt discriminant)
            / (lit 2 * a)).

(** [stage1_solver_func] and [stage2_solver_func], closed over the
    constants, the stage's organic outlet and its aqueous inlet. *)
Definition stage1_solver_func (i : ProcessInputs) (constants : ExConstants)
    (Y_out_E1 X_in_E1 : T) (X_out_guess : T) : T :=
  let Y_eq := getCu_or_from_Cu_aq constants X_out_guess in
  let Y_in := Y_out_E1 - (X_in_E1 - X_out_guess) / o_a_ex i in
  (Y_out_E1 - Y_in) - (effE1 i / lit 100) * (to_num Y_eq - Y_in).

Definition stage2_solver_func (i : ProcessInputs) (constants : ExConstants)
    (Y_out_E2 X_in_E2 : T) (X_out_guess : T) : T :=
  let Y_eq := getCu_or_from_Cu_aq constants X_out_guess in
  let Y_in := Y_out_E2 - (X_in_E2 - X_out_guess) / o_a_ex i in
  (Y_out_E2 - Y_in) - (effE2 i / lit 100) * (to_num Y_eq - Y_in).

(** The type of the [solve] argument of [calculateAll]. *)
Definition Solver : Type := (T -> T) -> T -> T -> nat -> exc T.

Definition extraction (i : ProcessInputs) (V_percent : T) (solve : Solver)
    : exc ExtractionResult :=
  let constants := extraction_constants i V_percent in
  let ml := getCu_or_from_Cu_aq constants (plsCu i) in
  let lo := to_num ml * (percentageML i / lit 100) in
  (* Stage 1 *)
  let Y_out_E1 := lo in
  let X_in_E1 := plsCu i in
  X_out_E1 <- solve (stage1_solver_func i constants Y_out_E1 X_in_E1)
                (X_in_E1 * lit 0.3) (lit 1e-7) 100%nat ;;
  let Y_in_E1 := Y_out_E1 - (X_in_E1 - X_out_E1) / o_a_ex i in
  (* Stage 2 *)
  let Y_out_E2 := Y_in_E1 in
  let X_in_E2 := X_out_E1 in
  X_out_E2 <- solve (stage2_solver_func i constants Y_out_E2 X_in_E2)
                (X_in_E2 * lit 0.15) (lit 1e-7) 100%nat ;;
  let Y_in_E2 := Y_out_E2 - (X_in_E2 - X_out_E2) / o_a_ex i in
  let so := Y_in_E2 in
  let raff := X_out_E2 in
  let recovery := (plsCu i - raff) / plsCu i * lit 100 in
  let raffAcid := plsAcid i + (plsCu i - raff) * lit 1.54 in
  let equilibriumCurve :=
    filter y_nonneg
      (Array_from 101 (fun k =>
         let x := (plsCu i / lit 100) * k in
         let y := getCu_or_from_Cu_aq constants x in
         {| x := JNum x; y := y |})) in
  let operatingLine :=
    [ {| name := "SO"; nx := raff; ny := so |};
      {| name := "LO"; nx := plsCu i; ny := lo |} ] in
  let stages :=
    [ {| name := "E1"; nx := X_out_E1; ny := Y_out_E1 |};
      {| name := "E2"; nx := X_out_E2; ny := Y_out_E2 |} ] in
  let details :=
    {| raffAcid := raffAcid;
       ex_stage1 :=
         {| A := pt X_in_E1 Y_out_E1;
            B := pt X_out_E1 Y_out_E1;
            C := pt X_out_E1 Y_in_E1;
            D := {| x := getCu_aq_from_Cu_or constants
                           (to_num (getCu_or_from_Cu_aq constants X_out_E1));
                    y := getCu_or_from_Cu_aq constants X_out_E1 |};
            efficiency := effE1 i |};
       ex_stage2 :=
         {| A := pt X_in_E2 Y_out_E2;
            B := pt X_out_E2 Y_out_E2;
            C := pt X_out_E2 Y_in_E2;
            D := {| x := getCu_aq_from_Cu_or constants
                           (to_num (getCu_or_from_Cu_aq constants X_out_E2));
                    y := getCu_or_from_Cu_aq constants X_out_E2 |};
            efficiency := effE2 i |} |} in
  Return {| ml := ml; lo := lo; ex_so := so; raff := raff;
            ex_recovery := recovery;
            ex_mccabeThiele :=
              {| equilibriumCurve := equilibriumCurve;
                 operatingLine := operatingLine;
                 stages := stages |};
            ex_details := details |}.

(** *** The stripping circuit (App.jsx, lines 484-561) *)

Definition stripping_constants (i : ProcessInputs) (V_percent : T) : StConstants :=
  {| a_st := spAcid i + lit 1.54 * spCu i;
     b_st := lit (-1.54);
     c_st := lit 3.303 * V_percent;
     d_st := lit (-3.0842);
     e_st := (lit 5.11e-3 * V_percent) - lit 0.194;
     f_st := lit 12.81 * Math_pow V_percent (lit (-0.901)) |}.

Definition getCu_or_from_Cu_aq_stripping (constants : StConstants) (Cu_aq : T)
    : jsval T :=
  if Cu_aq <=? lit 0 then JNum (lit 0)
  else
    let g_st := Math_pow (a_st constants + b_st constants * Cu_aq) (lit 2) / Cu_aq in
    let alpha_st :=
      (lit 2 * c_st constants * d_st constants * e_st constants
       + Math_pow (d_st constants) (lit 2) * f_st constants)
      / (Math_pow (d_st constants) (lit 2) * e_st constants) in
    let lambda_st :=
      (lit 2 * c_st constants * d_st constants * f_st constants
       + Math_pow (c_st constants) (lit 2) * e_st constants - g_st)
      / (Math_pow (d_st constants) (lit 2) * e_st constants) in
    let epsilon_st :=
      (f_st constants * Math_pow (c_st constants) (lit 2))
      / (Math_pow (d_st constants) (lit 2) * e_st constants) in
    let Y := solveCubic (lit 1) alpha_st lambda_st epsilon_st in
    Y.

Definition stripping (i : ProcessInputs) (V_percent : T)
    (extraction : ExtractionResult) : exc StrippingResult :=
  let lo := lo extraction in
  let so_ex := ex_so extraction in
  if lo <=? so_ex then Throw ModelInconsistencyError
  else
    let o_a_st := (adCu i - spCu i) / (lo - so_ex) in
    let constants := stripping_constants i V_percent in
    (* Stage 1 *)
    let Y_in_S1 := lo in
    let X_out_S1 := adCu i in
    let Y_eq_S1 := getCu_or_from_Cu_aq_stripping constants X_out_S1 in
    let Y_out_S1 := Y_in_S1 - (effS1 i / lit 100) * (Y_in_S1 - to_num Y_eq_S1) in
    let X_in_S1 := X_out_S1 - o_a_st * (Y_in_S1 - Y_out_S1) in
    (* Stage 2 *)
    let Y_in_S2 := Y_out_S1 in
    let X_out_S2 := X_in_S1 in
    let Y_eq_S2 := getCu_or_from_Cu_aq_stripping constants X_out_S2 in
    let so := Y_in_S2 - (effS2 i / lit 100) * (Y_in_S2 - to_num Y_eq_S2) in
    let recovery := (lo - so) / lo * lit 100 in
    let netCu := (lo - so) / V_percent in
    let equilibriumCurve :=
      filter y_nonneg
        (Array_from 101 (fun k =>
           let x := spCu i + ((adCu i - spCu i + lit 5) / lit 100) * k in
           let y := getCu_or_from_Cu_aq_stripping constants x in
           {| x := JNum x; y := y |})) in
    let operatingLine :=
      [ {| name := "SO"; nx := spCu i; ny := so |};
        {| name := "LO"; nx := adCu i; ny := lo |} ] in
    let stages :=
      [ {| name := "S1"; nx := X_out_S1; ny := Y_in_S1 |};
        {| name := "S2"; nx := X_out_S2; ny := Y_in_S2 |} ] in
    let details :=
      {| o_a_st := o_a_st;
         st_stage1 :=
           {| A := pt X_out_S1 Y_in_S1;
              B := pt X_out_S1 Y_out_S1;
              C := pt X_in_S1 Y_out_S1;
              D := {| x := JNum X_out_S1; y := Y_eq_S1 |};
              efficiency := effS1 i |};
         st_stage2 :=
           {| A := pt X_out_S2 Y_in_S2;
              B := pt X_out_S2
                     (Y_in_S2 - (effS2 i / lit 100) * (Y_in_S2 - to_num Y_eq_S2));
              C := pt (spCu i) so;
              D := {| x := JNum X_out_S2; y := Y_eq_S2 |};
              efficiency := effS2 i |} |} in
    Return {| st_so := so; st_recovery := recovery; netCu := netCu;
              st_mccabeThiele :=
                {| equilibriumCurve := equilibriumCurve;
                   operatingLine := operatingLine;
                   stages := stages |};
              st_details := details |}.

(** *** [calculateAll] (App.jsx, lines 358-575) *)

(** The [try] block: what it returns, or the error it throws. *)
Definition calculateAll_try (i : ProcessInputs) (V_percent : T) (solve : Solver)
    : exc Result :=
  extraction <- extraction i V_percent solve ;;
  stripping <- stripping i V_percent extraction ;;
  Return {| v_percent := V_percent;
            extraction_of := extraction;
            stripping_of := stripping;
            constraints :=
              {| so_consistency := ex_so extraction - st_so stripping |} |}.

(** [catch (e) { console.error(...); return null; }]: [None] is [null]. *)
Definition calculateAll (i : ProcessInputs) (V_percent : T) (solve : Solver)
    : option Result :=
  match calculateAll_try i V_percent solve with
  | Return res => Some res
  | Throw _ => None
  end.

(** *** [runSolver] (App.jsx, lines 38-103) *)

Definition objectiveFunction (inputs : ProcessInputs) (V_percent_guess : T) : T :=
  match calculateAll inputs V_percent_guess solve with
  | None => lit 1e9
  | Some res => so_consistency (constraints res)
  end.

(** Lines 79-84: the range check on the optimum and the final calculation,
    from the value the search returned. *)
Definition finalCalculation (inputs : ProcessInputs) (optimalVPercent : T)
    : exc (option Result) :=
  if (optimalVPercent <=? lit 0) || (optimalVPercent >? lit 50)
  then Throw OutOfRangeError
  else
    let finalResults := calculateAll inputs optimalVPercent solve in
    Return finalResults.

(** The [try] block of [calculationTask]. *)
Definition calculationTask_try (inputs : ProcessInputs) : exc (option Result) :=
  optimalVPercent <- solve (objectiveFunction inputs) (lit 17.1) (lit 1e-7) 100%nat ;;
  finalCalculation inputs optimalVPercent.

(** What [calculationTask] posts to the component: [setResults(finalResults)],
    or [setError(e.message)] from its [catch]. *)
Inductive Posted : Type :=
| SetResults (finalResults : option Result)
| SetError (e : Error).

Definition calculationTask (inputs : ProcessInputs) : Posted :=
  match calculationTask_try inputs with
  | Return finalResults => SetResults finalResults
  | Throw e => SetError e
  end.

End Engine.


(** ** The component [App] (App.jsx, lines 7-247) *)

(** The state cells of the component and the functions that write them.  A
    state setter replaces one cell; the callbacks that [setTimeout] defers
    are functions applied to the state they find when they run. *)
Module Component.

Section Component.

Context {T : Type} {num : Number T}.
Local Open Scope js_scope.

(** The six [useState] cells (lines 9-28).  [error] holds the message of the
    error caught, which names its throw site. *)
Record State : Type := {
  inputs : @ProcessInputs T;
  results : option (@Result T);
  isLoading : bool;
  error : option Error;
  isHelpVisible : bool;
  initialRun : bool
}.

Definition initial_state : State :=
  {| inputs := initial_inputs;
     results := None;
     isLoading := false;
     error := None;
     isHelpVisible := false;
     initialRun := false |}.

(** *** [handleInputChange] (lines 32-35) *)

(** [parseFloat], applied to the text of a form field. *)
Variable parseFloat : string -> T.

(** ToBoolean of a Number: false for NaN, [+0] and [-0], the Numbers that
    are both [<= 0] and [>= 0]. *)
Definition truthy (v : T) : bool :=
  negb (isNaN v || ((v <=? lit 0) && (lit 0 <=? v))).

(** [v || 0] *)
Definition or_zero (v : T) : T := if truthy v then v else lit 0.

(** The value of property [key] in [{ ...prev, [name]: v }], for the value
    [old] it has in [prev]. *)
Definition spread_with (name : string) (v : T) (key : string) (old : T) : T :=
  if String.eqb name key then v else old.

(** [{ ...prev, [name]: v }], on the twelve properties the program reads.
    (A [name] that is none of them adds a property nothing reads.) *)
Definition set_property (prev : @ProcessInputs T) (name : string) (v : T)
    : @ProcessInputs T :=
  {| plsFlow := spread_with name v "plsFlow" (plsFlow prev);
     plsCu := spread_with name v "plsCu" (plsCu prev);
     plsAcid := spread_with name v "plsAcid" (plsAcid prev);
     percentageML := spread_with name v "percentageML" (percentageML prev);
     o_a_ex := spread_with name v "o_a_ex" (o_a_ex prev);
     effE1 := spread_with name v "effE1" (effE1 prev);
     effE2 := spread_with name v "effE2" (effE2 prev);
     spCu := spread_with name v "spCu" (spCu prev);
     spAcid := spread_with name v "spAcid" (spAcid prev);
     adCu := spread_with name v "adCu" (adCu prev);
     effS1 := spread_with name v "effS1" (effS1 prev);
     effS2 := spread_with name v "effS2" (effS2 prev) |}.

(** [handleInputChange(e)], for [e.target] = [{ name, value }]. *)
Definition handleInputChange (name value : string) (st : State) : State :=
  {| inputs := set_property (inputs st) name (or_zero (parseFloat value));
     results := results st;
     isLoading := isLoading st;
     error := error st;
     isHelpVisible := isHelpVisible st;
     initialRun := initialRun st |}.

(** *** [runSolver] (lines 38-103) *)

(** The four setters [runSolver] calls before it defers [calculationTask]
    (lines 39-42). *)
Definition runSolver (st : State) : State :=
  {| inputs := inputs st;
     results := None;
     isLoading := true;
     error := None;
     isHelpVisible := isHelpVisible st;
     initialRun := true |}.

(** The callback [calculationTask] defers: [setResults(finalResults);
    setIsLoading(false)] (lines 87-90), or [setError(e.message);
    setIsLoading(false)] from its [catch] (lines 93-96). *)
Definition post (p : @Posted T) (st : State) : State :=
  match p with
  | SetResults finalResults =>
      {| inputs := inputs st;
         results := finalResults;
         isLoading := false;
         error := error st;
         isHelpVisible := isHelpVisible st;
         initialRun := initialRun st |}
  | SetError e =>
      {| inputs := inputs st;
         results := results st;
         isLoading := false;
         error := Some e;
         isHelpVisible := isHelpVisible st;
         initialRun := initialRun st |}
  end.

(** A click on the button, through to the end of the calculation it starts:
    [calculationTask] computes on the inputs of the state [runSolver] was
    called in. *)
Definition run (st : State) : State :=
  post (calculationTask (inputs st)) (runSolver st).

(** *** What is rendered (lines 185-188 and 230-241) *)

(** The right-hand column: the placeholder ([!initialRun && ...]), the
    progress message ([isLoading && ...]), the error message
    ([error && ...]), and the results
    ([results && !isLoading && !error && ...]). *)
Record Panels : Type := {
  placeholder : bool;
  progress : bool;
  message : option Error;
  summary : option (@Result T)
}.

Definition render (st : State) : Panels :=
  {| placeholder := negb (initialRun st);
     progress := isLoading st;
     message := error st;
     summary :=
       match results st, isLoading st, error st with
       | Some res, false, None => Some res
       | _, _, _ => None
       end |}.

(** The export button: [disabled={!results}]. *)
Definition export_disabled (st : State) : bool :=
  match results st with
  | Some _ => false
  | None => true
  end.

End Component.

End Component.
(** ** IEEE 754 binary64: the arithmetic the program runs in *)

(** The [Math] functions whose results ECMAScript leaves to the
    implementation. *)
Record MathLib : Type := {
  lib_cbrt : float -> float;
  lib_pow : float -> float -> float;
  lib_acos : float -> float;
  lib_cos : float -> float
}.

Definition float_of_Z (z : Z) : float :=
  match z with
  | Z0 => 0%float
  | Zpos p => PrimFloat.of_uint63 (Uint63.of_Z (Zpos p))
  | Zneg p => PrimFloat.opp (PrimFloat.of_uint63 (Uint63.of_Z (Zpos p)))
  end.

(** A decimal literal [n / 10^k]: numerator and denominator are below 2^53
    for every literal of the source, so both conversions are exact and the
    quotient is the correctly rounded value of the literal. *)
Definition float_lit (q : Q) : float :=
  PrimFloat.div (float_of_Z (Qnum q)) (float_of_Z (Zpos (Qden q))).

Definition FloatNumber (M : MathLib) : Number float := {|
  lit := float_lit;
  NaN := PrimFloat.nan;
  add := PrimFloat.add;
  sub := PrimFloat.sub;
  mul := PrimFloat.mul;
  div := PrimFloat.div;
  neg := PrimFloat.opp;
  ltb := PrimFloat.ltb;
  leb := PrimFloat.leb;
  isNaN := PrimFloat.is_nan;
  isFinite := PrimFloat.is_finite;
  Math_abs := PrimFloat.abs;
  Math_sqrt := PrimFloat.sqrt;
  Math_cbrt := lib_cbrt M;
  Math_pow := lib_pow M;
  Math_acos := lib_acos M;
  Math_cos := lib_cos M
|}.

(** *** A reference [Math] library

    Series and Newton iterations on binary64, accurate to a few units in the
    last place on the arguments the engine passes; the boundary cases follow
    ECMAScript (sections 21.3.2.2, 21.3.2.9, 21.3.2.12 and 21.3.2.26). *)
Module RefMath.

Local Open Scope float_scope.

Definition ln2 : float := 0x1.62e42fefa39efp-1.
Definition pi : float := 0x1.921fb54442d18p+1.

(** The integer nearest to [x], for [|x| < 2^51]. *)
Definition nearest (x : float) : float :=
  (x + 0x1.8p+52) - 0x1.8p+52.

Definition Z_of_integer (x : float) : Z :=
  match Prim2SF x with
  | S754_finite s m e => (if s then Z.opp else fun z => z) (Z.shiftl (Zpos m) e)
  | _ => 0%Z
  end.

(** Horner evaluation of [sum_{k < n} c(k) * z^k], from [k0]. *)
Fixpoint horner (c : float -> float) (z : float) (k : float) (n : nat) : float :=
  match n with
  | O => 0
  | S n' => c k + z * horner c z (k + 1) n'
  end.

(** [1 + r/k * (1 + r/(k+1) * (...))]: the exponential series. *)
Fixpoint exp_series (r : float) (k : float) (n : nat) : float :=
  match n with
  | O => 1
  | S n' => 1 + r / k * exp_series r (k + 1) n'
  end.

Definition exp (x : float) : float :=
  if is_nan x then nan
  else if 710 <? x then infinity
  else if x <? -746 then 0
  else
    let k := nearest (x / ln2) in
    let r := (x - k * 0x1.62e42fee00000p-1) - k * 0x1.a39ef35793c76p-33 in
    Z.ldexp (exp_series r 1 22) (Z_of_integer k).

Definition ln (x : float) : float :=
  if is_nan x then nan
  else if x <? 0 then nan
  else if x =? 0 then neg_infinity
  else if x =? infinity then infinity
  else
    let (m, e) := Z.frexp x in
    let (m, e) := if m <? 0x1.6a09e667f3bcdp-1 then (m * 2, (e - 1)%Z) else (m, e) in
    let s := (m - 1) / (m + 1) in
    let z := s * s in
    float_of_Z e * ln2
    + 2 * s * horner (fun k => 1 / (2 * k + 1)) z 0 24.

Definition is_integer (y : float) : bool :=
  (2 ^ 53 <=? Z.abs (Z_of_integer y))%Z
  || (float_of_Z (Z_of_integer y) =? y).

Definition pow (x y : float) : float :=
  if is_nan y then nan
  else if y =? 0 then 1
  else if is_nan x then nan
  else if y =? 1 then x
  else if y =? 2 then x * x
  else if 0 <? x then exp (y * ln x)
  else if x =? 0 then (if 0 <? y then 0 else infinity)
  else if is_integer y then
    let v := exp (y * ln (- x)) in
    if Z.odd (Z_of_integer y) then - v else v
  else nan.

Fixpoint cbrt_newton (a y : float) (n : nat) : float :=
  match n with
  | O => y
  | S n' => cbrt_newton a ((2 * y + a / (y * y)) / 3) n'
  end.

Definition cbrt (x : float) : float :=
  if is_nan x || is_infinity x || (x =? 0) then x
  else
    let a := PrimFloat.abs x in
    let (_, e) := Z.frexp a in
    let y := cbrt_newton a (Z.ldexp 1 (e / 3)%Z) 12 in
    if x <? 0 then - y else y.

(** [1 - z/(k(k+1)) * (1 - z/((k+2)(k+3)) * (...))]: the cosine series in
    [z = r^2]. *)
Fixpoint cos_series (z : float) (k : float) (n : nat) : float :=
  match n with
  | O => 1
  | S n' => 1 - z / (k * (k + 1)) * cos_series z (k + 2) n'
  end.

Definition cos (x : float) : float :=
  if is_nan x || is_infinity x then nan
  else
    let k := nearest (x / (2 * pi)) in
    let r := (x - k * 0x1.921fb54400000p+2) - k * 0x1.0b4611a626331p-32 in
    cos_series (r * r) 1 20.

(** [atan t] for [0 <= t]: two halvings of the angle, then the series. *)
Definition atan (t : float) : float :=
  let u := if 1 <? t then 1 / t else t in
  let u := u / (1 + PrimFloat.sqrt (1 + u * u)) in
  let u := u / (1 + PrimFloat.sqrt (1 + u * u)) in
  let z := - (u * u) in
  let a := 4 * u * horner (fun k => 1 / (2 * k + 1)) z 0 16 in
  if 1 <? t then pi / 2 - a else a.

Definition acos (x : float) : float :=
  if is_nan x || (1 <? PrimFloat.abs x) then nan
  else if x =? -1 then pi
  else 2 * atan (PrimFloat.sqrt ((1 - x) / (1 + x))).

Definition lib : MathLib :=
  {| lib_cbrt := cbrt; lib_pow := pow; lib_acos := acos; lib_cos := cos |}.

End RefMath.

(** ** The secant iteration, as the design describes it *)

Section SecantSpec.

Context {T : Type} {num : Number T}.
Local Open Scope js_scope.

(** The two points the iteration holds, with the objective's values. *)
Record SecantState : Type := {
  s_x0 : T;
  s_f0 : T;
  s_x1 : T;
  s_f1 : T
}.

(** Seeds [initial_guess - 0.1] and [initial_guess + 0.1], the first clamped
    to [0.1] when it is [<= 0]. *)
Definition secant_seed (objective : T -> T) (initial_guess : T) : SecantState :=
  let lower := initial_guess - lit 0.1 in
  let upper := initial_guess + lit 0.1 in
  let lower := if lower <=? lit 0 then lit 0.1 else lower in
  {| s_x0 := lower; s_f0 := objective lower;
     s_x1 := upper; s_f1 := objective upper |}.

(** The secant update [x2 = x1 - f1 * (x1 - x0) / (f1 - f0)]. *)
Definition secant_candidate (s : SecantState) : T :=
  s_x1 s - s_f1 s * (s_x1 s - s_x0 s) / (s_f1 s - s_f0 s).

(** [(x0, f0) <- (x1, f1)], [(x1, f1) <- (x2, objective x2)]. *)
Definition secant_shift (objective : T -> T) (s : SecantState) : SecantState :=
  let x2 := secant_candidate s in
  {| s_x0 := s_x1 s; s_f0 := s_f1 s; s_x1 := x2; s_f1 := objective x2 |}.

(** [|f1| < tolerance]. *)
Definition converged (tolerance : T) (s : SecantState) : bool :=
  Math_abs (s_f1 s) <? tolerance.

(** A candidate that is NaN, not finite, or [<= 0]. *)
Definition invalid_candidate (x2 : T) : bool :=
  isNaN x2 || negb (isFinite x2) || (x2 <=? lit 0).

(** The state after [k] updates. *)
Definition secant_state (objective : T -> T) (initial_guess : T) (k : nat)
    : SecantState :=
  Nat.iter k (secant_shift objective) (secant_seed objective initial_guess).

(** The iteration goes on from state [j]: not converged, and a candidate
    that can be taken. *)
Definition goes_on (objective : T -> T) (initial_guess tolerance : T) (j : nat)
    : Prop :=
  converged tolerance (secant_state objective initial_guess j) = false /\
  invalid_candidate
    (secant_candidate (secant_state objective initial_guess j)) = false.

(** The loop of [solve], entered in state [s] with [fuel] iterations left. *)
Definition run_from (objective : T -> T) (tolerance : T)
    (maxIterations fuel : nat) (s : SecantState) : exc T :=
  solve_loop objective tolerance maxIterations fuel
    (s_x0 s) (s_f0 s) (s_x1 s) (s_f1 s).

End SecantSpec.

(** ** The cubic and the isotherm inverse, as the design writes them *)

(** The quantities the design names, each a formula on Numbers evaluated
    from the inside out, a product or a sum of several terms from the
    left. *)
Module Formula.

Section Formula.

Context {T : Type} {num : Number T}.
Local Open Scope js_scope.

(** The depressed cubic of [a x^3 + b x^2 + c x + d]:
    [p = c/a - b^2 / (3 a^2)], [q = 2 b^3 / (27 a^3) - b c / (3 a^2) + d/a]
    and [term2 = q^2 / 4 + p^3 / 27]. *)
Definition p (a b c : T) : T := c / a - (b * b) / (lit 3 * a * a).

Definition q (a b c d : T) : T :=
  (lit 2 * b * b * b) / (lit 27 * a * a * a) - (b * c) / (lit 3 * a * a) + d / a.

Definition term2 (a b c d : T) : T :=
  (q a b c d * q a b c d) / lit 4 + (p a b c * p a b c * p a b c) / lit 27.

(** One real root: the Cardano sum
    [cbrt (- q/2 + sqrt term2) + cbrt (- q/2 - sqrt term2) - b / (3 a)]. *)
Definition cardano_sum (a b c d : T) : T :=
  Math_cbrt (- (q a b c d / lit 2) + Math_sqrt (term2 a b c d))
  + Math_cbrt (- (q a b c d / lit 2) - Math_sqrt (term2 a b c d))
  - b / (lit 3 * a).

(** Three real roots: [r = sqrt (- p^3 / 27)], [phi = acos (- q / (2 r))],
    and the first of the trigonometric roots,
    [2 cbrt(r) cos(phi / 3) - b / (3 a)]: the angle is [phi / 3] itself, with
    no third of a turn added to it. *)
Definition r (a b c : T) : T :=
  Math_sqrt (- (p a b c * p a b c * p a b c) / lit 27).

Definition phi (a b c d : T) : T :=
  Math_acos (- q a b c d / (lit 2 * r a b c)).

Definition first_trigonometric_root (a b c d : T) : T :=
  lit 2 * Math_cbrt (r a b c) * Math_cos (phi a b c d / lit 3) - b / (lit 3 * a).

(** [aqueous_from_organic]: [h = (e Cu_or + f) (c + d Cu_or)^2 / Cu_or], the
    quadratic [a' x^2 + b' x + c'] with [a' = b^2], [b' = 2 a b - h] and
    [c' = a^2], its discriminant [b'^2 - 4 a' c'], and the root
    [(h - 2 a b - sqrt disc) / (2 a')], the one with the square root
    subtracted. *)
Definition h (cs : @ExConstants T) (Cu_or : T) : T :=
  ((e_ex cs * Cu_or + f_ex cs) * Math_pow (c_ex cs + d_ex cs * Cu_or) (lit 2))
  / Cu_or.

Definition a' (cs : @ExConstants T) : T := Math_pow (b_ex cs) (lit 2).

Definition b' (cs : @ExConstants T) (Cu_or : T) : T :=
  lit 2 * a_ex cs * b_ex cs - h cs Cu_or.

Definition c' (cs : @ExConstants T) : T := Math_pow (a_ex cs) (lit 2).

Definition disc (cs : @ExConstants T) (Cu_or : T) : T :=
  b' cs Cu_or * b' cs Cu_or - lit 4 * a' cs * c' cs.

Definition smaller_root (cs : @ExConstants T) (Cu_or : T) : T :=
  (h cs Cu_or - lit 2 * a_ex cs * b_ex cs - Math_sqrt (disc cs Cu_or))
  / (lit 2 * a' cs).

(** The other root of the quadratic, with the square root added. *)
Definition larger_root (cs : @ExConstants T) (Cu_or : T) : T :=
  (h cs Cu_or - lit 2 * a_ex cs * b_ex cs + Math_sqrt (disc cs Cu_or))
  / (lit 2 * a' cs).

End Formula.

End Formula.


(** ** Readings of a result *)

Section Readings.

Context {T : Type} {num : Number T}.
Local Open Scope js_scope.

(** The constants of the stripping circuit, as constants of an isotherm of
    the extraction form. *)
Definition as_extraction (cs : @StConstants T) : @ExConstants T :=
  {| a_ex := a_st cs; b_ex := b_st cs; c_ex := c_st cs;
     d_ex := d_st cs; e_ex := e_st cs; f_ex := f_st cs |}.

(** The ordinate of a point, as a Number. *)
Definition py (p : @Point T) : T := to_num (y p).

(** The stage relation [(Y_out - Y_in) - (eff / 100) * (Y_eq - Y_in)] read
    off the points of a stage: [B = (X_out, Y_out)], [C = (X_out, Y_in)],
    [D = (., Y_eq)]. *)
Definition stage_residual (s : @StageRecord T) : T :=
  (py (B s) - py (C s)) - (efficiency s / lit 100) * (py (D s) - py (C s)).

(** A point a chart can draw: two Numbers, the second one [>= 0]. *)
Definition plottable (p : @Point T) : Prop :=
  exists vx vy, x p = JNum vx /\ y p = JNum vy /\ (vy >=? lit 0) = true.

(** A point whose coordinates are both Numbers. *)
Definition numeric (p : @Point T) : Prop :=
  exists vx vy, x p = JNum vx /\ y p = JNum vy.

(** A property of all twelve inputs. *)
Definition every_input (P : T -> Prop) (i : @ProcessInputs T) : Prop :=
  P (plsFlow i) /\ P (plsCu i) /\ P (plsAcid i) /\ P (percentageML i)
  /\ P (o_a_ex i) /\ P (effE1 i) /\ P (effE2 i) /\ P (spCu i)
  /\ P (spAcid i) /\ P (adCu i) /\ P (effS1 i) /\ P (effS2 i).

(** The fields of an extraction result, from the two aqueous outlets the
    stage searches returned. *)
Definition extraction_holds (i : @ProcessInputs T) (V_percent : T)
    (solve0 : @Solver T) (r : @ExtractionResult T) : Prop :=
  let constants := extraction_constants i V_percent in
  let lo0 :=
    to_num (getCu_or_from_Cu_aq constants (plsCu i)) * (percentageML i / lit 100) in
  exists X1 X2,
    solve0 (stage1_solver_func i constants lo0 (plsCu i))
      (plsCu i * lit 0.3) (lit 1e-7) 100%nat = Return X1
    /\ solve0 (stage2_solver_func i constants (lo0 - (plsCu i - X1) / o_a_ex i) X1)
         (X1 * lit 0.15) (lit 1e-7) 100%nat = Return X2
    /\ lo r = lo0
    /\ raff r = X2
    /\ ex_so r = lo0 - (plsCu i - X1) / o_a_ex i - (X1 - X2) / o_a_ex i
    /\ ex_recovery r = (plsCu i - X2) / plsCu i * lit 100
    /\ raffAcid (ex_details r) = plsAcid i + (plsCu i - X2) * lit 1.54
    /\ ex_stage1 (ex_details r)
       = {| A := pt (plsCu i) lo0;
            B := pt X1 lo0;
            C := pt X1 (lo0 - (plsCu i - X1) / o_a_ex i);
            D := {| x := getCu_aq_from_Cu_or constants
                           (to_num (getCu_or_from_Cu_aq constants X1));
                    y := getCu_or_from_Cu_aq constants X1 |};
            efficiency := effE1 i |}
    /\ ex_stage2 (ex_details r)
       = {| A := pt X1 (lo0 - (plsCu i - X1) / o_a_ex i);
            B := pt X2 (lo0 - (plsCu i - X1) / o_a_ex i);
            C := pt X2 (lo0 - (plsCu i - X1) / o_a_ex i - (X1 - X2) / o_a_ex i);
            D := {| x := getCu_aq_from_Cu_or constants
                           (to_num (getCu_or_from_Cu_aq constants X2));
                    y := getCu_or_from_Cu_aq constants X2 |};
            efficiency := effE2 i |}.

(** The fields of a stripping result, from the extraction result it was
    computed from. *)
Definition stripping_holds (i : @ProcessInputs T) (V_percent : T)
    (e : @ExtractionResult T) (r : @StrippingResult T) : Prop :=
  let constants := stripping_constants i V_percent in
  let o_a := (adCu i - spCu i) / (lo e - ex_so e) in
  let Y_eq_S1 := getCu_or_from_Cu_aq_stripping constants (adCu i) in
  let Y_out_S1 := lo e - (effS1 i / lit 100) * (lo e - to_num Y_eq_S1) in
  let X_in_S1 := adCu i - o_a * (lo e - Y_out_S1) in
  let Y_eq_S2 := getCu_or_from_Cu_aq_stripping constants X_in_S1 in
  let so := Y_out_S1 - (effS2 i / lit 100) * (Y_out_S1 - to_num Y_eq_S2) in
  (lo e <=? ex_so e) = false
  /\ o_a_st (st_details r) = o_a
  /\ st_so r = so
  /\ st_recovery r = (lo e - so) / lo e * lit 100
  /\ netCu r = (lo e - so) / V_percent
  /\ st_stage1 (st_details r)
     = {| A := pt (adCu i) (lo e);
          B := pt (adCu i) Y_out_S1;
          C := pt X_in_S1 Y_out_S1;
          D := {| x := JNum (adCu i); y := Y_eq_S1 |};
          efficiency := effS1 i |}
  /\ st_stage2 (st_details r)
     = {| A := pt X_in_S1 Y_out_S1;
          B := pt X_in_S1 so;
          C := pt (spCu i) so;
          D := {| x := JNum X_in_S1; y := Y_eq_S2 |};
          efficiency := effS2 i |}.

End Readings.
(** ** Concrete runs *)

(** The engine on binary64 with the reference [Math] library, on the inputs
    the theorems below are exercised at. *)
Module Scenario.

Definition ref : Number float := FloatNumber RefMath.lib.

(** The form's initial inputs. *)
Definition baseline : @ProcessInputs float := @initial_inputs float ref.

(** The same, with no copper in the feed ([plsCu = 0]). *)
Definition no_copper : @ProcessInputs float :=
  {| plsFlow := plsFlow baseline;
     plsCu := @lit float ref 0;
     plsAcid := plsAcid baseline;
     percentageML := percentageML baseline;
     o_a_ex := o_a_ex baseline;
     effE1 := effE1 baseline;
     effE2 := effE2 baseline;
     spCu := spCu baseline;
     spAcid := spAcid baseline;
     adCu := adCu baseline;
     effS1 := effS1 baseline;
     effS2 := effS2 baseline |}.

(** No copper in a strongly acidic feed ([plsAcid = 1e6]) at a large O/A
    ratio ([o_a_ex = 1e5]): the stage-1 objective at 0.1 is below the
    tolerance. *)
Definition no_copper_acidic : @ProcessInputs float :=
  {| plsFlow := plsFlow baseline;
     plsCu := @lit float ref 0;
     plsAcid := @lit float ref 1e6;
     percentageML := percentageML baseline;
     o_a_ex := @lit float ref 1e5;
     effE1 := effE1 baseline;
     effE2 := effE2 baseline;
     spCu := spCu baseline;
     spAcid := spAcid baseline;
     adCu := adCu baseline;
     effS1 := effS1 baseline;
     effS2 := effS2 baseline |}.

(** The same with the O/A ratio negated ([o_a_ex = -1e5]), a value the form
    accepts. *)
Definition no_copper_reversed : @ProcessInputs float :=
  {| plsFlow := plsFlow baseline;
     plsCu := @lit float ref 0;
     plsAcid := @lit float ref 1e6;
     percentageML := percentageML baseline;
     o_a_ex := @lit float ref (-1e5);
     effE1 := effE1 baseline;
     effE2 := effE2 baseline;
     spCu := spCu baseline;
     spAcid := spAcid baseline;
     adCu := adCu baseline;
     effS1 := effS1 baseline;
     effS2 := effS2 baseline |}.

(** The first guess of the outer search (line 78). *)
Definition V0 : float := @lit float ref 17.1.

(** The loaded organic and the stage-1 objective of the extraction circuit
    for inputs [i] at V% = 17.1, as [extraction] builds them. *)
Definition lo_at (i : @ProcessInputs float) : float :=
  let constants := @extraction_constants float ref i V0 in
  @mul float ref
    (@to_num float ref (@getCu_or_from_Cu_aq float ref constants (plsCu i)))
    (@div float ref (percentageML i) (@lit float ref 100)).

Definition stage1_at (i : @ProcessInputs float) : float -> float :=
  @stage1_solver_func float ref i (@extraction_constants float ref i V0)
    (lo_at i) (plsCu i).

(** The extraction circuit's result for inputs [i] at V% = 17.1, when it
    returns one. *)
Definition extraction_at (i : @ProcessInputs float)
    : option (@ExtractionResult float) :=
  match @extraction float ref i V0 (@solve float ref) with
  | Return e => Some e
  | Throw _ => None
  end.

(** An extraction result with the loaded and the stripped organic exchanged:
    one whose [lo] does not exceed its [so]. *)
Definition exchanged (e : @ExtractionResult float) : @ExtractionResult float :=
  {| ml := ml e; lo := ex_so e; ex_so := lo e; raff := raff e;
     ex_recovery := ex_recovery e;
     ex_mccabeThiele := ex_mccabeThiele e;
     ex_details := ex_details e |}.

(** A dilute feed, [plsCu = 1] and [plsAcid = 0.46], for which
    [plsAcid + 1.54 * plsCu] is 2; the other inputs as in the form. *)
Definition dilute_feed {T : Type} {num : Number T} : @ProcessInputs T :=
  {| plsFlow := lit 400;
     plsCu := lit 1;
     plsAcid := lit 0.46;
     percentageML := lit 80;
     o_a_ex := lit 1.25;
     effE1 := lit 95;
     effE2 := lit 95;
     spCu := lit 35;
     spAcid := lit 190;
     adCu := lit 50;
     effS1 := lit 98;
     effS2 := lit 98 |}.

Definition dilute : @ProcessInputs float := @dilute_feed float ref.

(** An acid-free feed: [plsAcid = 0], the other inputs as in the form. *)
Definition acid_free : @ProcessInputs float :=
  {| plsFlow := plsFlow baseline;
     plsCu := plsCu baseline;
     plsAcid := @lit float ref 0;
     percentageML := percentageML baseline;
     o_a_ex := o_a_ex baseline;
     effE1 := effE1 baseline;
     effE2 := effE2 baseline;
     spCu := spCu baseline;
     spAcid := spAcid baseline;
     adCu := adCu baseline;
     effS1 := effS1 baseline;
     effS2 := effS2 baseline |}.

End Scenario.
(** ** Theorems: the root finder *)

Section RootFinder.

Context {T : Type} {num : Number T}.
Local Open Scope js_scope.

Variable objective : T -> T.
Variables tolerance : T.

Lemma solve_run_from (initial_guess : T) (n : nat) :
  solve objective initial_guess tolerance n
  = run_from objective tolerance n n (secant_seed objective initial_guess).
Proof. reflexivity. Qed.

Lemma run_from_converged (m fuel : nat) (s : SecantState) :
  converged tolerance s = true ->
  run_from objective tolerance m (S fuel) s = Return (s_x1 s).
Proof.
  unfold run_from, converged. intros H. simpl. rewrite H. reflexivity.
Qed.

Lemma run_from_invalid (m fuel : nat) (s : SecantState) :
  converged tolerance s = false ->
  invalid_candidate (secant_candidate s) = true ->
  run_from objective tolerance m (S fuel) s = Throw DivergedError.
Proof.
  unfold run_from, converged, invalid_candidate, secant_candidate.
  intros Hc Hi. simpl. rewrite Hc, Hi. reflexivity.
Qed.

Lemma run_from_shift (m fuel : nat) (s : SecantState) :
  converged tolerance s = false ->
  invalid_candidate (secant_candidate s) = false ->
  run_from objective tolerance m (S fuel) s = run_from objective tolerance m fuel (secant_shift objective s).
Proof.
  unfold run_from, converged, invalid_candidate, secant_candidate.
  intros Hc Hi. simpl. rewrite Hc, Hi. reflexivity.
Qed.

(** [k] updates that all go on bring the loop to the [k]-th state, with [k]
    iterations of its budget spent. *)
Lemma run_from_steps (m : nat) (k fuel : nat) (s : SecantState) :
  (forall j, (j < k)%nat ->
     converged tolerance (Nat.iter j (secant_shift objective) s) = false /\
     invalid_candidate
       (secant_candidate (Nat.iter j (secant_shift objective) s)) = false) ->
  run_from objective tolerance m (k + fuel) s
  = run_from objective tolerance m fuel (Nat.iter k (secant_shift objective) s).
Proof.
  revert s. induction k as [|k IH]; intros s Hgo.
  - reflexivity.
  - destruct (Hgo 0%nat) as [Hc Hi]; [lia|]. simpl in Hc, Hi.
    change (S k + fuel)%nat with (S (k + fuel)).
    rewrite run_from_shift by assumption.
    rewrite IH.
    + rewrite Nat.iter_succ_r. reflexivity.
    + intros j Hj. rewrite <- Nat.iter_succ_r. apply Hgo. lia.
Qed.

(** The loop keeps [f1] the objective's value at [x1]: what it returns is a
    point where the objective is below the tolerance. *)
Lemma solve_loop_returns (m fuel : nat) (x0 f0 x1 : T) (v : T) :
  solve_loop objective tolerance m fuel x0 f0 x1 (objective x1) = Return v ->
  (Math_abs (objective v) <? tolerance) = true.
Proof.
  revert x0 f0 x1. induction fuel as [|fuel IH]; intros x0 f0 x1; simpl.
  - discriminate.
  - destruct (Math_abs (objective x1) <? tolerance) eqn:E.
    + intros [= <-]. exact E.
    + destruct (_ || _); [discriminate|]. apply IH.
Qed.

Lemma solve_returns (initial_guess : T) (n : nat) (v : T) :
  solve objective initial_guess tolerance n = Return v ->
  (Math_abs (objective v) <? tolerance) = true.
Proof. unfold solve. apply solve_loop_returns. Qed.

(** The two errors of [solve]. *)
Lemma solve_loop_throws (m fuel : nat) (x0 f0 x1 f1 : T) (e : Error) :
  solve_loop objective tolerance m fuel x0 f0 x1 f1 = Throw e ->
  e = DivergedError \/ e = NotConvergedError m.
Proof.
  revert x0 f0 x1 f1. induction fuel as [|fuel IH]; intros x0 f0 x1 f1; simpl.
  - intros [= <-]. right. reflexivity.
  - destruct (Math_abs f1 <? tolerance); [discriminate|].
    destruct (_ || _).
    + intros [= <-]. left. reflexivity.
    + apply IH.
Qed.

Lemma solve_throws (initial_guess : T) (n : nat) (e : Error) :
  solve objective initial_guess tolerance n = Throw e ->
  e = DivergedError \/ e = NotConvergedError n.
Proof. unfold solve. apply solve_loop_throws. Qed.

End RootFinder.

Section RootFinderClaims.

Context {T : Type} {num : Number T}.
Local Open Scope js_scope.

(** C3.  [solve] is the secant method of the design: it starts from the seeds
    [initial_guess - 0.1] (clamped to [0.1] when [<= 0]) and
    [initial_guess + 0.1]; as long as [|f1| < tolerance] fails and the
    candidate can be taken, its loop holds exactly the state that [k] secant
    updates [x2 = x1 - f1 * (x1 - x0) / (f1 - f0)] with the shifts
    [(x0, f0) <- (x1, f1)], [(x1, f1) <- (x2, objective x2)] produce, with
    [k] iterations of the budget spent; and at the first state where
    [|f1| < tolerance] holds it returns that state's [x1]. *)
Theorem solve_secant_method
    (objective : T -> T) (initial_guess tolerance : T)
    (maxIterations k : nat) :
  (k < maxIterations)%nat ->
  (forall j, (j < k)%nat -> goes_on objective initial_guess tolerance j) ->
  solve objective initial_guess tolerance maxIterations
  = run_from objective tolerance maxIterations (maxIterations - k)
      (secant_state objective initial_guess k)
  /\ (converged tolerance (secant_state objective initial_guess k) = true ->
      solve objective initial_guess tolerance maxIterations
      = Return (s_x1 (secant_state objective initial_guess k))).
Proof.
  intros Hk Hgo.
  assert (Hrun : solve objective initial_guess tolerance maxIterations
                 = run_from objective tolerance maxIterations (maxIterations - k)
                     (secant_state objective initial_guess k)).
  { rewrite solve_run_from.
    replace maxIterations with (k + (maxIterations - k))%nat at 2 by lia.
    apply run_from_steps. exact Hgo. }
  split; [exact Hrun|].
  intros Hconv. rewrite Hrun.
  destruct (maxIterations - k)%nat as [|fuel] eqn:E; [lia|].
  apply run_from_converged. exact Hconv.
Qed.

(** C4.  When the secant candidate of some state is NaN, not finite or
    [<= 0] (the states before it having gone on, and [|f1| < tolerance]
    failing there), [solve] throws the divergence error at that iteration;
    when every one of the [maxIterations] states goes on, it throws the
    non-convergence error.  Either way the outcome is a thrown error, never a
    returned Number. *)
Theorem solve_failure_modes
    (objective : T -> T) (initial_guess tolerance : T) (maxIterations : nat) :
  (forall k,
     (k < maxIterations)%nat ->
     (forall j, (j < k)%nat -> goes_on objective initial_guess tolerance j) ->
     converged tolerance (secant_state objective initial_guess k) = false ->
     invalid_candidate
       (secant_candidate (secant_state objective initial_guess k)) = true ->
     solve objective initial_guess tolerance maxIterations = Throw DivergedError)
  /\ ((forall j, (j < maxIterations)%nat ->
         goes_on objective initial_guess tolerance j) ->
      solve objective initial_guess tolerance maxIterations
      = Throw (NotConvergedError maxIterations)).
Proof.
  split.
  - intros k Hk Hgo Hconv Hinv.
    rewrite solve_run_from.
    replace maxIterations with (k + (maxIterations - k))%nat at 2 by lia.
    rewrite run_from_steps by exact Hgo.
    destruct (maxIterations - k)%nat as [|fuel] eqn:E; [lia|].
    apply run_from_invalid; assumption.
  - intros Hgo.
    rewrite solve_run_from.
    replace maxIterations with (maxIterations + 0)%nat at 2 by lia.
    rewrite run_from_steps by exact Hgo.
    reflexivity.
Qed.

End RootFinderClaims.

(** ** Theorems: the root finder on binary64 *)

Section FloatRootFinder.

Local Open Scope float_scope.

(** Every decimal literal of the source, read by [float_lit], is the
    binary64 value a JavaScript engine reads. *)
Example source_literals :
  map float_lit
    [0.1; 1e-7; 100; 17.1; 1e9; 0; 50; 1e-9; 3; 2; 27; 4; 1;
     1.54; -1.54; 3.303; -3.0842; -25.698; -1.704; 10.663; -0.608;
     0.3; 0.15; 5.11e-3; 0.194; 12.81; -0.901; 5;
     400; 7.0; 1.96; 80; 1.25; 95; 35; 190; 98]%Q
  = [0.1; 1e-7; 100; 17.1; 1e9; 0; 50; 1e-9; 3; 2; 27; 4; 1;
     1.54; -1.54; 3.303; -3.0842; -25.698; -1.704; 10.663; -0.608;
     0.3; 0.15; 5.11e-3; 0.194; 12.81; -0.901; 5;
     400; 7.0; 1.96; 80; 1.25; 95; 35; 190; 98].
Proof. vm_compute. reflexivity. Qed.

Lemma is_nan_of_SF (v : float) : Prim2SF v = S754_nan -> is_nan v = true.
Proof.
  intros H. unfold is_nan. rewrite FloatAxioms.eqb_spec, H. reflexivity.
Qed.

(** [v - v] is [+0], or NaN when [v] is infinite or NaN. *)
Lemma SF_sub_self (v : float) :
  Prim2SF (v - v) = S754_zero false \/ Prim2SF (v - v) = S754_nan.
Proof.
  rewrite FloatAxioms.sub_spec.
  destruct (Prim2SF v) as [s|s| |s m e]; cbn.
  - left. destruct s; reflexivity.
  - right. destruct s; reflexivity.
  - right. reflexivity.
  - left. unfold SF64sub, SFsub. rewrite Z.sub_diag. reflexivity.
Qed.

(** [v - v] is [+0] for every finite [v]. *)
Lemma sub_self_finite (v : float) : is_finite v = true -> v - v = 0.
Proof.
  intros H. apply Prim2SF_inj. rewrite FloatAxioms.sub_spec.
  replace (Prim2SF 0) with (S754_zero false) by reflexivity.
  unfold is_finite, is_nan, is_infinity in H.
  rewrite !FloatAxioms.eqb_spec, FloatAxioms.abs_spec in H.
  replace (Prim2SF infinity) with (S754_infinity false) in H by reflexivity.
  destruct (Prim2SF v) as [s|s| |s m e]; cbn in H |- *.
  - destruct s; reflexivity.
  - destruct s; discriminate H.
  - discriminate H.
  - unfold SF64sub, SFsub. rewrite Z.sub_diag. reflexivity.
Qed.

(** [v * 0] is a zero, or NaN when [v] is infinite or NaN. *)
Lemma SF_mul_zero (v : float) :
  (exists s, Prim2SF (v * 0) = S754_zero s) \/ Prim2SF (v * 0) = S754_nan.
Proof.
  rewrite FloatAxioms.mul_spec.
  replace (Prim2SF 0) with (S754_zero false) by reflexivity.
  destruct (Prim2SF v) as [s|s| |s m e]; cbn; eauto.
Qed.

(** With both points at [0.1] and one value [v] of the objective, the secant
    candidate is [0.1 - (v * 0) / (v - v)]: a zero over a zero, or a NaN
    already. *)
Lemma coincident_candidate_nan (v : float) :
  is_nan (float_lit 0.1 - v * (float_lit 0.1 - float_lit 0.1) / (v - v)) = true.
Proof.
  apply is_nan_of_SF.
  replace (float_lit 0.1 - float_lit 0.1) with 0 by (vm_compute; reflexivity).
  rewrite FloatAxioms.sub_spec, FloatAxioms.div_spec.
  destruct (SF_mul_zero v) as [[s Hm] | Hm], (SF_sub_self v) as [Hs | Hs];
    rewrite Hm, Hs; vm_compute; reflexivity.
Qed.

Context (M : MathLib).
#[local] Hint Extern 0 (Number float) => exact (FloatNumber M) : typeclass_instances.
Local Open Scope js_scope.

Lemma zero_guess_seed (objective : float -> float) :
  secant_seed objective (lit 0)
  = {| s_x0 := lit 0.1; s_f0 := objective (lit 0.1);
       s_x1 := lit 0.1; s_f1 := objective (lit 0.1) |}.
Proof.
  unfold secant_seed.
  replace (@lit float _ 0 - lit 0.1 <=? lit 0) with true by (vm_compute; reflexivity).
  replace (@lit float _ 0 + lit 0.1) with (@lit float _ 0.1) by (vm_compute; reflexivity).
  reflexivity.
Qed.

Lemma zero_guess_candidate (objective : float -> float) :
  isNaN (secant_candidate (secant_seed objective (lit 0))) = true.
Proof.
  rewrite zero_guess_seed. unfold secant_candidate. cbn [s_x0 s_f0 s_x1 s_f1].
  apply coincident_candidate_nan.
Qed.

Lemma solve_zero_guess (objective : float -> float) (tolerance : float) (n : nat) :
  solve objective (lit 0) tolerance (S n)
  = if Math_abs (objective (lit 0.1)) <? tolerance
    then Return (lit 0.1) else Throw DivergedError.
Proof.
  rewrite solve_run_from.
  destruct (Math_abs (objective (lit 0.1)) <? tolerance) eqn:E.
  - rewrite run_from_converged.
    + rewrite zero_guess_seed. reflexivity.
    + unfold converged. rewrite zero_guess_seed. exact E.
  - apply run_from_invalid.
    + unfold converged. rewrite zero_guess_seed. exact E.
    + unfold invalid_candidate. rewrite zero_guess_candidate. reflexivity.
Qed.

(** C10.  Called with the initial guess 0 (the per-stage seeds [0.3 * X_in]
    and [0.15 * X_in] when the stage's aqueous inlet is 0), [solve] starts
    from two coincident points [x0 = x1 = 0.1]; [f1 - f0] is 0 (for a finite
    value of the objective) and its first secant candidate is NaN; so, for
    any objective, tolerance and non-empty iteration budget, it returns
    [0.1] at once when [|objective(0.1)| < tolerance] and throws the
    divergence error otherwise: no secant step is ever taken. *)
Theorem solve_from_zero_guess
    (objective : float -> float) (tolerance : float) (n : nat) :
  @lit float _ 0 * lit 0.3 = lit 0
  /\ @lit float _ 0 * lit 0.15 = lit 0
  /\ s_x0 (secant_seed objective (lit 0)) = lit 0.1
  /\ s_x1 (secant_seed objective (lit 0)) = lit 0.1
  /\ (isFinite (objective (lit 0.1)) = true ->
      s_f1 (secant_seed objective (lit 0)) - s_f0 (secant_seed objective (lit 0))
      = lit 0)
  /\ isNaN (secant_candidate (secant_seed objective (lit 0))) = true
  /\ solve objective (lit 0) tolerance (S n)
     = if Math_abs (objective (lit 0.1)) <? tolerance
       then Return (lit 0.1) else Throw DivergedError.
Proof.
  split; [vm_compute; reflexivity|].
  split; [vm_compute; reflexivity|].
  rewrite zero_guess_seed.
  split; [reflexivity|]. split; [reflexivity|].
  split; [exact (sub_self_finite _)|].
  rewrite <- zero_guess_seed.
  split; [apply zero_guess_candidate | apply solve_zero_guess].
Qed.

End FloatRootFinder.

(** ** Theorems: NaN and the order of binary64 *)

Section FloatOrder.

Local Open Scope float_scope.

Lemma SFcompare_refl (a : spec_float) :
  a <> S754_nan -> SFcompare a a = Some Eq.
Proof.
  destruct a as [s|s| |s m e]; cbn; intros H.
  - reflexivity.
  - destruct s; reflexivity.
  - contradiction.
  - rewrite Z.compare_refl, Pos.compare_cont_refl. destruct s; reflexivity.
Qed.

Lemma SFcompare_antisym (a b : spec_float) :
  SFcompare b a = option_map CompOpp (SFcompare a b).
Proof.
  destruct a as [s|s| |s m e], b as [s'|s'| |s' m' e']; cbn;
    try reflexivity;
    try (destruct s; reflexivity); try (destruct s'; reflexivity);
    try (destruct s, s'; reflexivity).
  rewrite (Z.compare_antisym e e').
  change (Pos.compare_cont Eq m' m) with (Pos.compare_cont (CompOpp Eq) m' m).
  rewrite <- (Pos.compare_cont_antisym m m' Eq).
  destruct s, s'; cbn; try reflexivity;
    destruct (e ?= e')%Z; cbn; reflexivity.
Qed.

(** A float is NaN exactly when its specification is. *)
Lemma SF_of_is_nan (v : float) : is_nan v = true -> Prim2SF v = S754_nan.
Proof.
  unfold is_nan. rewrite FloatAxioms.eqb_spec. unfold SFeqb. intros H.
  destruct (Prim2SF v) as [s|s| |s m e] eqn:E; [| |reflexivity|];
    rewrite SFcompare_refl in H by discriminate; discriminate.
Qed.

Lemma SF_of_number (v : float) : is_nan v = false -> Prim2SF v <> S754_nan.
Proof.
  intros H E. rewrite (is_nan_of_SF _ E) in H. discriminate.
Qed.

(** NaN spreads through the arithmetic: a difference, a quotient or a
    product that is a number has two numbers for operands. *)
Lemma sub_number (u v : float) :
  is_nan (u - v) = false -> is_nan u = false /\ is_nan v = false.
Proof.
  intros H. split.
  - destruct (is_nan u) eqn:E; [|reflexivity].
    apply SF_of_is_nan in E.
    rewrite (is_nan_of_SF (u - v)) in H; [discriminate|].
    rewrite FloatAxioms.sub_spec, E. reflexivity.
  - destruct (is_nan v) eqn:E; [|reflexivity].
    apply SF_of_is_nan in E.
    rewrite (is_nan_of_SF (u - v)) in H; [discriminate|].
    rewrite FloatAxioms.sub_spec, E. destruct (Prim2SF u); reflexivity.
Qed.

Lemma div_number (u v : float) :
  is_nan (u / v) = false -> is_nan u = false /\ is_nan v = false.
Proof.
  intros H. split.
  - destruct (is_nan u) eqn:E; [|reflexivity].
    apply SF_of_is_nan in E.
    rewrite (is_nan_of_SF (u / v)) in H; [discriminate|].
    rewrite FloatAxioms.div_spec, E. reflexivity.
  - destruct (is_nan v) eqn:E; [|reflexivity].
    apply SF_of_is_nan in E.
    rewrite (is_nan_of_SF (u / v)) in H; [discriminate|].
    rewrite FloatAxioms.div_spec, E. destruct (Prim2SF u); reflexivity.
Qed.

Lemma mul_number (u v : float) :
  is_nan (u * v) = false -> is_nan u = false /\ is_nan v = false.
Proof.
  intros H. split.
  - destruct (is_nan u) eqn:E; [|reflexivity].
    apply SF_of_is_nan in E.
    rewrite (is_nan_of_SF (u * v)) in H; [discriminate|].
    rewrite FloatAxioms.mul_spec, E. reflexivity.
  - destruct (is_nan v) eqn:E; [|reflexivity].
    apply SF_of_is_nan in E.
    rewrite (is_nan_of_SF (u * v)) in H; [discriminate|].
    rewrite FloatAxioms.mul_spec, E. destruct (Prim2SF u); reflexivity.
Qed.

(** A comparison that holds has two numbers for operands. *)
Lemma ltb_number (u v : float) :
  (u <? v) = true -> is_nan u = false /\ is_nan v = false.
Proof.
  rewrite FloatAxioms.ltb_spec. unfold SFltb. intros H. split.
  - destruct (is_nan u) eqn:E; [|reflexivity].
    apply SF_of_is_nan in E. rewrite E in H. discriminate.
  - destruct (is_nan v) eqn:E; [|reflexivity].
    apply SF_of_is_nan in E. rewrite E in H.
    destruct (Prim2SF u); discriminate.
Qed.

Lemma abs_number (u : float) : is_nan (abs u) = false -> is_nan u = false.
Proof.
  intros H. destruct (is_nan u) eqn:E; [|reflexivity].
  apply SF_of_is_nan in E.
  rewrite (is_nan_of_SF (abs u)) in H; [discriminate|].
  rewrite FloatAxioms.abs_spec, E. reflexivity.
Qed.

(** Between two numbers, [u <= v] fails exactly when [v < u] holds. *)
Lemma leb_ltb (u v : float) :
  is_nan u = false -> is_nan v = false -> (u <=? v) = negb (v <? u).
Proof.
  intros Hu Hv. apply SF_of_number in Hu, Hv.
  rewrite FloatAxioms.leb_spec, FloatAxioms.ltb_spec.
  unfold SFleb, SFltb. rewrite (SFcompare_antisym (Prim2SF u) (Prim2SF v)).
  destruct (SFcompare (Prim2SF u) (Prim2SF v)) as [[| |]|] eqn:E;
    try reflexivity.
  exfalso.
  destruct (Prim2SF u) as [s|s| |s m e], (Prim2SF v) as [s'|s'| |s' m' e'];
    cbn in E; try discriminate; try contradiction.
Qed.

End FloatOrder.

(** *** The root finder on the stage-1 objective of the extraction circuit *)

Section RootFinderRuns.

#[local] Existing Instance Scenario.ref.

(** On the form's initial inputs at V% = 17.1, the stage-1 search (seeded at
    [0.3 * plsCu]) goes on through four secant updates and returns the [x1]
    of the fourth state. *)
Lemma solve_secant_method_witness :
  solve (Scenario.stage1_at Scenario.baseline)
    ((plsCu Scenario.baseline * lit 0.3)%js) (lit 1e-7) 100
  = Return (s_x1 (secant_state
                    (Scenario.stage1_at Scenario.baseline)
                    ((plsCu Scenario.baseline * lit 0.3)%js)
                    4)).
Proof.
  refine (proj2 (@solve_secant_method float Scenario.ref _ _ _ 100 4 _ _) _).
  - lia.
  - intros j Hj.
    do 4 (destruct j as [|j]; [split; vm_compute; reflexivity|]).
    lia.
  - vm_compute. reflexivity.
Defined.

(** With no copper in the feed the same search is seeded at 0 and diverges at
    its first candidate; on the initial inputs, a budget of three iterations
    is spent without convergence. *)
Lemma solve_failure_modes_witness :
  solve (Scenario.stage1_at Scenario.no_copper)
    ((plsCu Scenario.no_copper * lit 0.3)%js) (lit 1e-7) 100
  = Throw DivergedError
  /\ solve (Scenario.stage1_at Scenario.baseline)
       ((plsCu Scenario.baseline * lit 0.3)%js) (lit 1e-7) 3
     = Throw (NotConvergedError 3).
Proof.
  split.
  - refine (proj1 (@solve_failure_modes float Scenario.ref _ _ _ 100) 0%nat _ _ _ _).
    + lia.
    + intros j Hj. lia.
    + vm_compute. reflexivity.
    + vm_compute. reflexivity.
  - refine (proj2 (@solve_failure_modes float Scenario.ref _ _ _ 3) _).
    intros j Hj.
    do 3 (destruct j as [|j]; [split; vm_compute; reflexivity|]).
    lia.
Defined.

End RootFinderRuns.

(** ** Theorems: the isotherm guards and the stripping circuit *)

Section Circuits.

Context {T : Type} {num : Number T}.
Local Open Scope js_scope.

(** C7.  For every inputs and trial V%, the isotherm mappings send an
    argument that is [<= 0] to the Number 0: [getCu_or_from_Cu_aq] and
    [getCu_aq_from_Cu_or] of the extraction circuit, and
    [getCu_or_from_Cu_aq_stripping] of the stripping circuit (the only
    mapping that circuit defines). *)
Theorem isotherm_nonpositive_is_zero
    (i : ProcessInputs) (V_percent : T) (Cu : T) :
  (Cu <=? lit 0) = true ->
  getCu_or_from_Cu_aq (extraction_constants i V_percent) Cu = JNum (lit 0)
  /\ getCu_aq_from_Cu_or (extraction_constants i V_percent) Cu = JNum (lit 0)
  /\ getCu_or_from_Cu_aq_stripping (stripping_constants i V_percent) Cu
     = JNum (lit 0).
Proof.
  intros H.
  unfold getCu_or_from_Cu_aq, getCu_aq_from_Cu_or, getCu_or_from_Cu_aq_stripping.
  rewrite H. auto.
Qed.

(** A stage-1 search that throws ends the extraction calculation. *)
Lemma extraction_stage1_throws
    (i : ProcessInputs) (V_percent : T) (solve0 : Solver) (e : Error) :
  solve0
    (stage1_solver_func i (extraction_constants i V_percent)
       (to_num (getCu_or_from_Cu_aq (extraction_constants i V_percent) (plsCu i))
        * (percentageML i / lit 100))
       (plsCu i))
    (plsCu i * lit 0.3) (lit 1e-7) 100%nat = Throw e ->
  extraction i V_percent solve0 = Throw e.
Proof. intros H. unfold extraction. rewrite H. reflexivity. Qed.

(** The maximum loading and the loaded organic of a result. *)
Lemma extraction_ml_lo
    (i : ProcessInputs) (V_percent : T) (solve0 : Solver) :
  match extraction i V_percent solve0 with
  | Return r =>
      ml r = getCu_or_from_Cu_aq (extraction_constants i V_percent) (plsCu i)
      /\ lo r
         = to_num (getCu_or_from_Cu_aq (extraction_constants i V_percent)
                     (plsCu i))
           * (percentageML i / lit 100)
  | Throw _ => True
  end.
Proof.
  unfold extraction.
  destruct (solve0 _ _ _ _) as [X1|]; [|exact I]. cbn [bind].
  destruct (solve0 _ _ _ _) as [X2|]; [|exact I]. cbn [bind].
  split; reflexivity.
Qed.

Lemma extraction_returns
    (i : ProcessInputs) (V_percent : T) (solve0 : Solver) (r : ExtractionResult) :
  extraction i V_percent solve0 = Return r ->
  ml r = getCu_or_from_Cu_aq (extraction_constants i V_percent) (plsCu i)
  /\ lo r
     = to_num (getCu_or_from_Cu_aq (extraction_constants i V_percent) (plsCu i))
       * (percentageML i / lit 100).
Proof.
  intros H. generalize (extraction_ml_lo i V_percent solve0).
  rewrite H. trivial.
Qed.

Lemma calculateAll_extraction_throws
    (i : ProcessInputs) (V_percent : T) (solve0 : Solver) (e : Error) :
  extraction i V_percent solve0 = Throw e ->
  calculateAll_try i V_percent solve0 = Throw e.
Proof. intros H. unfold calculateAll_try. rewrite H. reflexivity. Qed.

Lemma stripping_guard_throws
    (i : ProcessInputs) (V_percent : T) (extraction : ExtractionResult) :
  (lo extraction <=? ex_so extraction) = true ->
  stripping i V_percent extraction = Throw ModelInconsistencyError.
Proof. intros H. unfold stripping. rewrite H. reflexivity. Qed.

Lemma stripping_guard_passes
    (i : ProcessInputs) (V_percent : T) (extraction : ExtractionResult) :
  (lo extraction <=? ex_so extraction) = false ->
  exists r,
    stripping i V_percent extraction = Return r
    /\ o_a_st (st_details r)
       = (adCu i - spCu i) / (lo extraction - ex_so extraction).
Proof.
  intros H. unfold stripping. rewrite H.
  eexists. split; reflexivity.
Qed.

(** C5.  The stripping calculation throws the model-inconsistency error when
    [LO <= SO_extraction], before anything else is computed; otherwise it
    goes on and its O/A ratio is
    [(adCu - spCu) / (LO - SO_extraction)].  A ratio is therefore only ever
    computed when the test [LO <= SO_extraction] has failed. *)
Theorem stripping_ratio_guard
    (i : ProcessInputs) (V_percent : T) (extraction : ExtractionResult) :
  ((lo extraction <=? ex_so extraction) = true ->
   stripping i V_percent extraction = Throw ModelInconsistencyError)
  /\ ((lo extraction <=? ex_so extraction) = false ->
      exists r,
        stripping i V_percent extraction = Return r
        /\ o_a_st (st_details r)
           = (adCu i - spCu i) / (lo extraction - ex_so extraction))
  /\ (forall r,
        stripping i V_percent extraction = Return r ->
        (lo extraction <=? ex_so extraction) = false).
Proof.
  split; [apply stripping_guard_throws|].
  split; [apply stripping_guard_passes|].
  intros r Hr.
  destruct (lo extraction <=? ex_so extraction) eqn:E; [|reflexivity].
  rewrite stripping_guard_throws in Hr by exact E. discriminate.
Qed.

End Circuits.

Section CircuitRuns.

#[local] Existing Instance Scenario.ref.

Lemma isotherm_nonpositive_is_zero_witness :
  getCu_or_from_Cu_aq (extraction_constants Scenario.baseline Scenario.V0) (lit 0)
  = JNum (lit 0)
  /\ getCu_aq_from_Cu_or (extraction_constants Scenario.baseline Scenario.V0) (lit 0)
     = JNum (lit 0)
  /\ getCu_or_from_Cu_aq_stripping
       (stripping_constants Scenario.baseline Scenario.V0) (lit 0)
     = JNum (lit 0).
Proof.
  apply (@isotherm_nonpositive_is_zero float Scenario.ref).
  vm_compute. reflexivity.
Defined.

(** On the initial inputs at V% = 17.1 the extraction circuit returns a
    result with [lo > so]: the stripping circuit goes on with the derived
    ratio.  With the two exchanged, it throws. *)
Lemma stripping_ratio_guard_witness :
  exists e,
    Scenario.extraction_at Scenario.baseline = Some e
    /\ (exists r,
          stripping Scenario.baseline Scenario.V0 e = Return r
          /\ o_a_st (st_details r)
             = ((adCu Scenario.baseline - spCu Scenario.baseline)
                / (lo e - ex_so e))%js)
    /\ stripping Scenario.baseline Scenario.V0 (Scenario.exchanged e)
       = Throw ModelInconsistencyError.
Proof.
  eexists. split; [vm_compute; reflexivity|].
  split.
  - apply (proj1 (proj2 (@stripping_ratio_guard float Scenario.ref _ _ _))).
    vm_compute. reflexivity.
  - apply (proj1 (@stripping_ratio_guard float Scenario.ref _ _ _)).
    vm_compute. reflexivity.
Defined.

End CircuitRuns.

(** ** Theorems: [calculateAll] and the outer search *)

Section Orchestrator.

Context {T : Type} {num : Number T}.
Local Open Scope js_scope.

Variable inputs : @ProcessInputs T.

Lemma calculateAll_of_throw (V_percent : T) (e : Error) :
  calculateAll_try inputs V_percent solve = Throw e ->
  calculateAll inputs V_percent solve = None.
Proof. unfold calculateAll. intros ->. reflexivity. Qed.

Lemma calculateAll_of_return (V_percent : T) (res : @Result T) :
  calculateAll_try inputs V_percent solve = Return res ->
  calculateAll inputs V_percent solve = Some res.
Proof. unfold calculateAll. intros ->. reflexivity. Qed.

Lemma calculateAll_some (V_percent : T) (res : @Result T) :
  calculateAll inputs V_percent solve = Some res ->
  calculateAll_try inputs V_percent solve = Return res.
Proof.
  unfold calculateAll.
  destruct (calculateAll_try inputs V_percent solve); [intros [= ->]|discriminate].
  reflexivity.
Qed.

Lemma calculateAll_try_fields (V_percent : T) :
  match calculateAll_try inputs V_percent solve with
  | Return res =>
      v_percent res = V_percent
      /\ so_consistency (constraints res)
         = ex_so (extraction_of res) - st_so (stripping_of res)
  | Throw _ => True
  end.
Proof.
  unfold calculateAll_try.
  destruct (extraction inputs V_percent solve) as [ex|]; [|exact I].
  cbn [bind].
  destruct (stripping inputs V_percent ex) as [st|]; [|exact I].
  cbn [bind]. split; reflexivity.
Qed.

Lemma objective_of_result (V_percent : T) (res : @Result T) :
  calculateAll_try inputs V_percent solve = Return res ->
  objectiveFunction inputs V_percent = so_consistency (constraints res).
Proof.
  intros H. unfold objectiveFunction.
  rewrite (calculateAll_of_return _ _ H). reflexivity.
Qed.

(** A posted result is the evaluation at an optimum the search returned and
    the range check let through. *)
Lemma calculationTask_result (res : @Result T) :
  calculationTask inputs = SetResults (Some res) ->
  exists v,
    solve (objectiveFunction inputs) (lit 17.1) (lit 1e-7) 100 = Return v
    /\ ((v <=? lit 0) || (v >? lit 50)) = false
    /\ calculateAll_try inputs v solve = Return res.
Proof.
  unfold calculationTask, calculationTask_try.
  destruct (solve (objectiveFunction inputs) (lit 17.1) (lit 1e-7) 100)
    as [v|] eqn:Hs; cbn [bind]; [|discriminate].
  unfold finalCalculation.
  destruct ((v <=? lit 0) || (v >? lit 50)) eqn:Hr; [discriminate|].
  destruct (calculateAll inputs v solve) as [res'|] eqn:Hc; [|discriminate].
  intros H. exists v. split; [reflexivity|]. split; [exact Hr|].
  apply calculateAll_some.
  assert (He : Some res' = Some res) by congruence.
  rewrite <- He. exact Hc.
Qed.

Lemma objective_sentinel (V_percent : T) (e : Error) :
  calculateAll_try inputs V_percent solve = Throw e ->
  objectiveFunction inputs V_percent = lit 1e9.
Proof.
  intros H. unfold objectiveFunction.
  rewrite (calculateAll_of_throw _ _ H). reflexivity.
Qed.

(** The final calculation (line 84) goes through [calculateAll] and
    rethrows nothing.  ([search_result_evaluates] below: at a V% the search
    returned, the evaluation does not throw.) *)
Lemma finalCalculation_absorbs (V_percent : T) (e : Error) :
  calculateAll_try inputs V_percent solve = Throw e ->
  ((V_percent <=? lit 0) || (V_percent >? lit 50)) = false ->
  finalCalculation inputs V_percent = Return None.
Proof.
  intros H Hrange. unfold finalCalculation.
  rewrite Hrange, (calculateAll_of_throw _ _ H). reflexivity.
Qed.

Lemma finalCalculation_throws (V_percent : T) (e : Error) :
  finalCalculation inputs V_percent = Throw e -> e = OutOfRangeError.
Proof.
  unfold finalCalculation.
  destruct (_ || _); [intros [= <-]; reflexivity | discriminate].
Qed.

Lemma calculationTask_search_error (e : Error) :
  solve (objectiveFunction inputs) (lit 17.1) (lit 1e-7) 100 = Throw e ->
  calculationTask inputs = SetError e.
Proof.
  intros H. unfold calculationTask, calculationTask_try.
  rewrite H. reflexivity.
Qed.

Lemma calculationTask_errors (e : Error) :
  calculationTask inputs = SetError e ->
  e = DivergedError \/ e = NotConvergedError 100 \/ e = OutOfRangeError.
Proof.
  unfold calculationTask, calculationTask_try.
  destruct (solve (objectiveFunction inputs) (lit 17.1) (lit 1e-7) 100)
    as [v|e'] eqn:Hs; simpl.
  - destruct (finalCalculation inputs v) as [r|e'] eqn:Hf; [discriminate|].
    intros [= <-]. right. right. exact (finalCalculation_throws _ _ Hf).
  - intros [= <-]. destruct (solve_throws _ _ _ _ _ Hs); auto.
Qed.

(** A converged run: the posted result is the evaluation at its own V%,
    which passed the range check, and the two circuits agree on the stripped
    organic within the tolerance of the search. *)
Theorem converged_result_is_consistent (res : @Result T) :
  calculationTask inputs = SetResults (Some res) ->
  calculateAll_try inputs (v_percent res) solve = Return res
  /\ ((v_percent res <=? lit 0) || (v_percent res >? lit 50)) = false
  /\ (Math_abs (ex_so (extraction_of res) - st_so (stripping_of res))
      <? lit 1e-7) = true.
Proof.
  intros H. destruct (calculationTask_result _ H) as (v & Hs & Hr & Hc).
  pose proof (calculateAll_try_fields v) as Hf. rewrite Hc in Hf.
  destruct Hf as [Hv Hso].
  rewrite Hv. split; [exact Hc|]. split; [exact Hr|].
  apply solve_returns in Hs.
  rewrite (objective_of_result _ _ Hc), Hso in Hs. exact Hs.
Qed.

End Orchestrator.

Section FloatOrchestrator.

Context (M : MathLib).
#[local] Hint Extern 0 (Number float) => exact (FloatNumber M) : typeclass_instances.
Local Open Scope js_scope.

(** The sentinel is no root: a search never returns a V% whose evaluation
    failed. *)
Lemma sentinel_not_converged :
  (Math_abs (@lit float _ 1e9) <? lit 1e-7) = false.
Proof. vm_compute. reflexivity. Qed.

Lemma search_result_evaluates
    (inputs : @ProcessInputs float) (initial_guess : float) (n : nat) (v : float) :
  solve (objectiveFunction inputs) initial_guess (lit 1e-7) n = Return v ->
  exists res, calculateAll_try inputs v solve = Return res.
Proof.
  intros H. apply solve_returns in H.
  destruct (calculateAll_try inputs v solve) as [res|e] eqn:E.
  - exists res. reflexivity.
  - rewrite (objective_sentinel _ _ _ E), sentinel_not_converged in H.
    discriminate.
Qed.



End FloatOrchestrator.

(** ** Theorems: a feed without copper *)

Section NoCopper.

Local Open Scope float_scope.

(** [0 * y] is a zero for every finite [y]. *)
Lemma zero_mul_finite (y : float) :
  is_finite y = true -> (0 * y =? 0) = true.
Proof.
  unfold is_finite, is_nan, is_infinity.
  rewrite !FloatAxioms.eqb_spec, FloatAxioms.abs_spec, FloatAxioms.mul_spec.
  replace (Prim2SF 0) with (S754_zero false) by reflexivity.
  replace (Prim2SF infinity) with (S754_infinity false) by reflexivity.
  intros H.
  destruct (Prim2SF y) as [s|s| |s m e]; cbn in H |- *;
    try reflexivity; try discriminate H; destruct s; discriminate H.
Qed.

(** A zero of either sign compares with any Number as [+0] does. *)
Lemma zero_leb (z v : float) : (z =? 0) = true -> (z <=? v) = (0 <=? v).
Proof.
  rewrite FloatAxioms.eqb_spec, !FloatAxioms.leb_spec.
  replace (Prim2SF 0) with (S754_zero false) by reflexivity.
  intros H.
  destruct (Prim2SF z) as [s|s| |s m e]; cbn in H;
    try discriminate H; try (destruct s; discriminate H).
  destruct (Prim2SF v) as [s'|s'| |s' m' e']; reflexivity.
Qed.

Context (M : MathLib).
#[local] Hint Extern 0 (Number float) => exact (FloatNumber M) : typeclass_instances.
Local Open Scope js_scope.

Variable i : @ProcessInputs float.
Variable V_percent : float.
Hypothesis no_copper : plsCu i = lit 0.

Lemma ml_no_copper :
  getCu_or_from_Cu_aq (extraction_constants i V_percent) (plsCu i) = JNum (lit 0).
Proof. rewrite no_copper. reflexivity. Qed.

Lemma extraction_no_copper_diverges :
  (Math_abs (stage1_solver_func i (extraction_constants i V_percent)
               (lit 0 * (percentageML i / lit 100)) (lit 0) (lit 0.1))
   <? lit 1e-7) = false ->
  extraction i V_percent solve = Throw DivergedError.
Proof.
  intros Hf. apply extraction_stage1_throws.
  rewrite ml_no_copper, no_copper. cbn [to_num].
  replace (@lit float _ 0 * lit 0.3) with (@lit float _ 0)
    by (vm_compute; reflexivity).
  rewrite (solve_zero_guess M _ _ 99), Hf. reflexivity.
Qed.

Lemma extraction_no_copper_returns (e : ExtractionResult) :
  extraction i V_percent solve = Return e ->
  ml e = JNum (lit 0) /\ lo e = lit 0 * (percentageML i / lit 100).
Proof.
  intros H. apply extraction_returns in H.
  rewrite ml_no_copper in H. exact H.
Qed.

Lemma stage1_no_copper :
  solve (stage1_solver_func i (extraction_constants i V_percent)
           (lit 0 * (percentageML i / lit 100)) (lit 0))
    (plsCu i * lit 0.3) (lit 1e-7) 100
  = if Math_abs (stage1_solver_func i (extraction_constants i V_percent)
                   (lit 0 * (percentageML i / lit 100)) (lit 0) (lit 0.1))
       <? lit 1e-7
    then Return (lit 0.1) else Throw DivergedError.
Proof.
  rewrite no_copper.
  replace (@lit float _ 0 * lit 0.3) with (@lit float _ 0)
    by (vm_compute; reflexivity).
  apply (solve_zero_guess M _ _ 99).
Qed.

Lemma calculateAll_try_of_extraction (e : ExtractionResult) :
  extraction i V_percent solve = Return e ->
  calculateAll_try i V_percent solve
  = (s <- stripping i V_percent e ;;
     Return {| v_percent := V_percent;
               extraction_of := e;
               stripping_of := s;
               constraints := {| so_consistency := ex_so e - st_so s |} |}).
Proof. intros H. unfold calculateAll_try. rewrite H. reflexivity. Qed.

(** With [LO] a zero, the test [LO <= SO] of the stripping circuit is the
    test [0 <= SO]. *)
Lemma guard_no_copper (e : ExtractionResult) :
  extraction i V_percent solve = Return e ->
  isFinite (percentageML i / lit 100) = true ->
  (lo e <=? ex_so e) = (lit 0 <=? ex_so e).
Proof.
  intros He Hfin. rewrite (proj2 (extraction_no_copper_returns e He)).
  apply zero_leb. exact (zero_mul_finite _ Hfin).
Qed.

(** C6 (amended).  With no copper in the feed ([plsCu = 0]), at any trial
    V%: the maximum loading is [ML = 0] and the loaded organic is
    [LO = 0 * (percentageML / 100)], a zero for every finite percentage.
    The stage-1 search of the extraction circuit is seeded at 0: it returns
    0.1 when the stage-1 objective at 0.1 is below the tolerance, and
    otherwise throws the divergence error, which ends the evaluation
    ([calculateAll] returns [null], the objective is the sentinel) before the
    stripping circuit is reached.  When the extraction circuit returns, the
    stripping circuit throws the model-inconsistency error exactly when
    [0 <= SO], and the evaluation ends with that error; for [SO] below 0, or
    NaN, it computes a result. *)
Theorem no_copper_trial_outcomes :
  getCu_or_from_Cu_aq (extraction_constants i V_percent) (plsCu i) = JNum (lit 0)
  /\ (isFinite (percentageML i / lit 100) = true ->
      PrimFloat.eqb (lit 0 * (percentageML i / lit 100))%js (lit 0) = true)
  /\ (forall e,
        extraction i V_percent solve = Return e ->
        ml e = JNum (lit 0) /\ lo e = lit 0 * (percentageML i / lit 100))
  /\ solve (stage1_solver_func i (extraction_constants i V_percent)
              (lit 0 * (percentageML i / lit 100)) (lit 0))
       (plsCu i * lit 0.3) (lit 1e-7) 100
     = (if Math_abs (stage1_solver_func i (extraction_constants i V_percent)
                       (lit 0 * (percentageML i / lit 100)) (lit 0) (lit 0.1))
           <? lit 1e-7
        then Return (lit 0.1) else Throw DivergedError)
  /\ ((Math_abs (stage1_solver_func i (extraction_constants i V_percent)
                   (lit 0 * (percentageML i / lit 100)) (lit 0) (lit 0.1))
         <? lit 1e-7) = false ->
      extraction i V_percent solve = Throw DivergedError
      /\ calculateAll_try i V_percent solve = Throw DivergedError
      /\ calculateAll i V_percent solve = None
      /\ objectiveFunction i V_percent = lit 1e9)
  /\ (forall e,
        extraction i V_percent solve = Return e ->
        isFinite (percentageML i / lit 100) = true ->
        ((lit 0 <=? ex_so e) = true ->
         stripping i V_percent e = Throw ModelInconsistencyError
         /\ calculateAll_try i V_percent solve = Throw ModelInconsistencyError
         /\ objectiveFunction i V_percent = lit 1e9)
        /\ ((lit 0 <=? ex_so e) = false ->
            exists res,
              calculateAll_try i V_percent solve = Return res
              /\ extraction_of res = e)).
Proof.
  split; [exact ml_no_copper|].
  split; [apply zero_mul_finite|].
  split; [exact extraction_no_copper_returns|].
  split; [exact stage1_no_copper|].
  split.
  - intros Hf.
    assert (Hx : extraction i V_percent solve = Throw DivergedError)
      by exact (extraction_no_copper_diverges Hf).
    assert (Hc : calculateAll_try i V_percent solve = Throw DivergedError)
      by exact (calculateAll_extraction_throws _ _ _ _ Hx).
    split; [exact Hx|]. split; [exact Hc|].
    split; [exact (calculateAll_of_throw _ _ _ Hc)
           | exact (objective_sentinel _ _ _ Hc)].
  - intros e He Hfin.
    pose proof (guard_no_copper e He Hfin) as Hg.
    pose proof (calculateAll_try_of_extraction e He) as Hc.
    split; intros H0; rewrite H0 in Hg.
    + assert (Hs : stripping i V_percent e = Throw ModelInconsistencyError)
        by exact (stripping_guard_throws _ _ _ Hg).
      rewrite Hs in Hc. cbn [bind] in Hc.
      split; [exact Hs|]. split; [exact Hc|].
      exact (objective_sentinel _ _ _ Hc).
    + destruct (stripping_guard_passes i V_percent e Hg) as [s [Hs _]].
      rewrite Hs in Hc. cbn [bind] in Hc.
      eexists. split; [exact Hc | reflexivity].
Qed.

End NoCopper.

Section OrchestratorRuns.

#[local] Existing Instance Scenario.ref.
Local Open Scope js_scope.

(** Without copper, at the first guess V% = 17.1.  On the form's other
    inputs the extraction circuit diverges and the evaluation returns
    [null].  In the strongly acidic feed at the large O/A ratio both stage
    searches return, [SO] is not below 0 and the evaluation ends with the
    model-inconsistency error.  With that ratio negated [SO] is below 0 and
    the evaluation returns a result. *)
Lemma no_copper_trial_outcomes_witness :
  (extraction Scenario.no_copper Scenario.V0 solve = Throw DivergedError
   /\ calculateAll_try Scenario.no_copper Scenario.V0 solve = Throw DivergedError
   /\ calculateAll Scenario.no_copper Scenario.V0 solve = None
   /\ objectiveFunction Scenario.no_copper Scenario.V0 = lit 1e9)
  /\ (exists e,
        Scenario.extraction_at Scenario.no_copper_acidic = Some e
        /\ stripping Scenario.no_copper_acidic Scenario.V0 e
           = Throw ModelInconsistencyError
        /\ calculateAll_try Scenario.no_copper_acidic Scenario.V0 solve
           = Throw ModelInconsistencyError
        /\ objectiveFunction Scenario.no_copper_acidic Scenario.V0 = lit 1e9)
  /\ (exists e res,
        Scenario.extraction_at Scenario.no_copper_reversed = Some e
        /\ calculateAll_try Scenario.no_copper_reversed Scenario.V0 solve
           = Return res
        /\ extraction_of res = e).
Proof.
  split; [|split].
  - apply (proj1 (proj2 (proj2 (proj2 (proj2
      (no_copper_trial_outcomes RefMath.lib Scenario.no_copper Scenario.V0
         eq_refl)))))).
    vm_compute. reflexivity.
  - eexists. split; [vm_compute; reflexivity|].
    refine (proj1 (proj2 (proj2 (proj2 (proj2 (proj2
      (no_copper_trial_outcomes RefMath.lib Scenario.no_copper_acidic
         Scenario.V0 eq_refl))))) _ _ _) _);
      vm_compute; reflexivity.
  - let r := eval vm_compute in
        (Scenario.extraction_at Scenario.no_copper_reversed) in
    match r with
    | Some ?e0 =>
        assert (He : extraction Scenario.no_copper_reversed Scenario.V0 solve
                     = Return e0) by (vm_compute; reflexivity);
        assert (Hfin : isFinite (percentageML Scenario.no_copper_reversed
                                 / lit 100) = true)
          by (vm_compute; reflexivity);
        assert (Hso : (lit 0 <=? ex_so e0) = false)
          by (vm_compute; reflexivity);
        destruct (proj2 (proj2 (proj2 (proj2 (proj2 (proj2
                   (no_copper_trial_outcomes RefMath.lib
                      Scenario.no_copper_reversed Scenario.V0 eq_refl)))))
                    e0 He Hfin) Hso) as [res [H1 H2]];
        exists e0, res;
        split; [vm_compute; reflexivity | split; [exact H1 | exact H2]]
    end.
Defined.

(** C6, as stated, fails: without copper the evaluation at V% = 17.1 ends in
    the divergence error of the stage-1 search, thrown by the extraction
    circuit; the model-inconsistency error is not what is raised. *)
Lemma no_copper_error_is_divergence :
  plsCu Scenario.no_copper = lit 0
  /\ extraction Scenario.no_copper Scenario.V0 solve = Throw DivergedError
  /\ calculateAll_try Scenario.no_copper Scenario.V0 solve = Throw DivergedError
  /\ calculateAll_try Scenario.no_copper Scenario.V0 solve
     <> Throw ModelInconsistencyError.
Proof.
  split; [reflexivity|].
  split; [vm_compute; reflexivity|].
  assert (H : calculateAll_try Scenario.no_copper Scenario.V0 solve
              = Throw DivergedError) by (vm_compute; reflexivity).
  split; [exact H|]. rewrite H. discriminate.
Qed.


End OrchestratorRuns.

(** ** Theorems: [solveCubic] *)

Section Cubic.

Context {T : Type} {num : Number T}.
Local Open Scope js_scope.

(** [solveCubic], by the two tests it makes. *)
Lemma solveCubic_cases (a b c d : T) :
  solveCubic a b c d
  = if Math_abs a <? lit 1e-9 then JUndefined
    else if Formula.term2 a b c d >=? lit 0
         then JNum (Formula.cardano_sum a b c d)
         else JNum (Formula.first_trigonometric_root a b c d).
Proof. reflexivity. Qed.

End Cubic.

Section FloatCubic.

Context (M : MathLib).
#[local] Hint Extern 0 (Number float) => exact (FloatNumber M) : typeclass_instances.
Local Open Scope js_scope.

(** On binary64 a Number is [>= 0], [< 0] or NaN, and only one of the
    three. *)
Lemma negative_not_nonneg (v : float) : (v <? lit 0) = true -> (v >=? lit 0) = false.
Proof.
  intros H. destruct (ltb_number _ _ H) as [Hv H0].
  cbn [lit leb ltb FloatNumber] in *.
  rewrite (leb_ltb _ _ H0 Hv), H. reflexivity.
Qed.

Lemma nan_not_nonneg (v : float) : isNaN v = true -> (v >=? lit 0) = false.
Proof.
  cbn [lit isNaN leb FloatNumber]. intros H. apply SF_of_is_nan in H.
  rewrite FloatAxioms.leb_spec, H. reflexivity.
Qed.

Lemma sign_cases (v : float) :
  (v >=? lit 0) = true \/ (v <? lit 0) = true \/ isNaN v = true.
Proof.
  cbn [lit isNaN leb ltb FloatNumber].
  destruct (PrimFloat.is_nan v) eqn:Hv; [right; right; reflexivity|].
  assert (H0 : PrimFloat.is_nan (float_lit 0) = false) by reflexivity.
  rewrite (leb_ltb _ _ H0 Hv).
  destruct (PrimFloat.ltb v (float_lit 0)); [right; left|left]; reflexivity.
Qed.

(** C2.  On binary64, with any [Math] library, for all coefficients:
    [solveCubic] returns nothing ([undefined]) when [|a| < 1e-9]; otherwise,
    with [p], [q] and [term2] the quantities of the design, it returns the
    Cardano sum when [term2 >= 0] and the first trigonometric root
    [2 cbrt(r) cos(phi / 3) - b / (3 a)] when [term2 < 0]: the expression it
    evaluates is that root's, with the angle [phi / 3], and none of the two
    others'.  A [term2] that is neither [>= 0] nor [< 0] is NaN: the [else]
    branch is taken then as well.  Nothing is returned in no other case. *)
Theorem solveCubic_branches (a b c d : float) :
  ((Math_abs a <? lit 1e-9) = true -> solveCubic a b c d = JUndefined)
  /\ ((Math_abs a <? lit 1e-9) = false ->
      (Formula.term2 a b c d >=? lit 0) = true ->
      solveCubic a b c d = JNum (Formula.cardano_sum a b c d))
  /\ ((Math_abs a <? lit 1e-9) = false ->
      (Formula.term2 a b c d <? lit 0) = true ->
      solveCubic a b c d = JNum (Formula.first_trigonometric_root a b c d))
  /\ ((Math_abs a <? lit 1e-9) = false ->
      isNaN (Formula.term2 a b c d) = true ->
      solveCubic a b c d = JNum (Formula.first_trigonometric_root a b c d))
  /\ ((Formula.term2 a b c d >=? lit 0) = true
      \/ (Formula.term2 a b c d <? lit 0) = true
      \/ isNaN (Formula.term2 a b c d) = true)
  /\ (solveCubic a b c d = JUndefined -> (Math_abs a <? lit 1e-9) = true).
Proof.
  rewrite solveCubic_cases.
  split; [intros ->; reflexivity|].
  split; [intros -> ->; reflexivity|].
  split; [intros -> H; rewrite (negative_not_nonneg _ H); reflexivity|].
  split; [intros -> H; rewrite (nan_not_nonneg _ H); reflexivity|].
  split; [apply sign_cases|].
  destruct (Math_abs a <? lit 1e-9); [reflexivity|].
  destruct (Formula.term2 a b c d >=? lit 0); discriminate.
Qed.

End FloatCubic.

(** ** Theorems: [getCu_aq_from_Cu_or] *)

Section Quadratic.

Context {T : Type} {num : Number T}.
Local Open Scope js_scope.

(** [getCu_aq_from_Cu_or], by the two tests it makes. *)
Lemma getCu_aq_from_Cu_or_cases (cs : @ExConstants T) (Cu_or : T) :
  getCu_aq_from_Cu_or cs Cu_or
  = if Cu_or <=? lit 0 then JNum (lit 0)
    else if Formula.disc cs Cu_or <? lit 0 then JNull
         else JNum (Formula.smaller_root cs Cu_or).
Proof. reflexivity. Qed.

End Quadratic.

Section FloatQuadratic.

Context (M : MathLib).
#[local] Hint Extern 0 (Number float) => exact (FloatNumber M) : typeclass_instances.
Local Open Scope js_scope.

Lemma positive_not_nonpos (v : float) : (lit 0 <? v) = true -> (v <=? lit 0) = false.
Proof.
  intros H. destruct (ltb_number _ _ H) as [H0 Hv].
  cbn [lit leb ltb FloatNumber] in *.
  rewrite (leb_ltb _ _ Hv H0), H. reflexivity.
Qed.

(** C8.  On binary64, with any [Math] library, for every [Cu_or > 0] and
    isotherm constants: with [h] and the quadratic [a' x^2 + b' x + c'] of
    the design, [getCu_aq_from_Cu_or] returns nothing ([null]) exactly when
    the discriminant [b'^2 - 4 a' c'] is negative, and otherwise returns the
    Number [(h - 2 a b - sqrt disc) / (2 a')]. *)
Theorem aqueous_from_organic_quadratic (cs : @ExConstants float) (Cu_or : float) :
  (lit 0 <? Cu_or) = true ->
  Formula.disc cs Cu_or
  = Formula.b' cs Cu_or * Formula.b' cs Cu_or
    - lit 4 * Formula.a' cs * Formula.c' cs
  /\ (getCu_aq_from_Cu_or cs Cu_or = JNull
      <-> (Formula.disc cs Cu_or <? lit 0) = true)
  /\ ((Formula.disc cs Cu_or <? lit 0) = false ->
      getCu_aq_from_Cu_or cs Cu_or = JNum (Formula.smaller_root cs Cu_or))
  /\ getCu_aq_from_Cu_or cs Cu_or <> JUndefined.
Proof.
  intros Hpos. rewrite getCu_aq_from_Cu_or_cases, (positive_not_nonpos _ Hpos).
  split; [reflexivity|].
  destruct (Formula.disc cs Cu_or <? lit 0).
  - split; [split; reflexivity|]. split; discriminate.
  - split; [split; discriminate|]. split; [reflexivity | discriminate].
Qed.

End FloatQuadratic.

Section QuadraticRuns.

#[local] Existing Instance Scenario.ref.
Local Open Scope js_scope.

(** On the initial inputs at V% = 17.1: at the loading 5 the discriminant is
    not negative and the aqueous concentration is the root with the square
    root subtracted, 0.48..., below the root with the square root added; at
    the loading 12 the discriminant is negative and nothing is returned. *)
Lemma aqueous_from_organic_quadratic_witness :
  (let cs := extraction_constants Scenario.baseline Scenario.V0 in
   getCu_aq_from_Cu_or cs (lit 5) = JNum (Formula.smaller_root cs (lit 5))
   /\ (Formula.smaller_root cs (lit 5) <? Formula.larger_root cs (lit 5)) = true)
  /\ (let cs := extraction_constants Scenario.baseline Scenario.V0 in
      getCu_aq_from_Cu_or cs (lit 12) = JNull).
Proof.
  split; cbv zeta; [split|].
  - refine (proj1 (proj2 (proj2
      (aqueous_from_organic_quadratic RefMath.lib
         (extraction_constants Scenario.baseline Scenario.V0)
         (@lit float Scenario.ref 5) _))) _);
      vm_compute; reflexivity.
  - vm_compute. reflexivity.
  - refine (proj2 (proj1 (proj2
      (aqueous_from_organic_quadratic RefMath.lib
         (extraction_constants Scenario.baseline Scenario.V0)
         (@lit float Scenario.ref 12) _))) _);
      vm_compute; reflexivity.
Defined.

End QuadraticRuns.


(** ** The engine run on binary64 *)

Section FloatRuns.

#[local] Existing Instance Scenario.ref.
Local Open Scope js_scope.

(** [x^3 - 6 x^2 + 11 x - 6 = (x - 1) (x - 2) (x - 3)]: three real roots,
    the first trigonometric root is the largest.  [x^3 - 8]: one real root.
    [x^3 - 3 x + 2 = (x - 1)^2 (x + 2)]: [term2 = 0], the Cardano sum is the
    simple root.  A leading coefficient below [1e-9]: nothing. *)
Example solveCubic_runs :
  solveCubic (lit 1) (lit (-6)) (lit 11) (lit (-6)) = JNum (lit 3)
  /\ solveCubic (lit 1) (lit 0) (lit 0) (lit (-8)) = JNum (lit 2)
  /\ solveCubic (lit 1) (lit 0) (lit (-3)) (lit 2) = JNum (lit (-2))
  /\ solveCubic (lit 1e-10) (lit 1) (lit 2) (lit 3) = @JUndefined float.
Proof. repeat split; vm_compute; reflexivity. Qed.

(** [x^3 - 7 x^2 + 15 x - 9 = (x - 1) (x - 3)^2]: [term2], 0 for the
    coefficients, is computed below 0, and the first trigonometric root is
    returned, the double root 3 within 1e-8. *)
Example solveCubic_double_root_run :
  (Formula.term2 (lit 1) (lit (-7)) (lit 15) (lit (-9)) <? lit 0) = true
  /\ solveCubic (lit 1) (lit (-7)) (lit 15) (lit (-9))
     = JNum (Formula.first_trigonometric_root (lit 1) (lit (-7)) (lit 15) (lit (-9)))
  /\ (lit 3 <? Formula.first_trigonometric_root (lit 1) (lit (-7)) (lit 15) (lit (-9)))
     = true
  /\ (Formula.first_trigonometric_root (lit 1) (lit (-7)) (lit 15) (lit (-9))
      <? lit 3.00000001) = true.
Proof. repeat split; vm_compute; reflexivity. Qed.

(** On the initial inputs the outer search converges, to V% = 17.336...,
    inside (0, 50]; the raffinate is below the feed, the recovery positive,
    the loaded organic above the stripped organic, and the two circuits agree
    on the stripped organic within the tolerance. *)
Example baseline_run :
  exists res,
    calculationTask Scenario.baseline = SetResults (Some res)
    /\ (lit 17.3 <? v_percent res) = true
    /\ (v_percent res <? lit 17.4) = true
    /\ (raff (extraction_of res) <? plsCu Scenario.baseline) = true
    /\ (lit 0 <? ex_recovery (extraction_of res)) = true
    /\ (ex_so (extraction_of res) <? lo (extraction_of res)) = true
    /\ (Math_abs (so_consistency (constraints res)) <? lit 1e-7) = true.
Proof.
  eexists. split; [vm_compute; reflexivity|].
  repeat split; vm_compute; reflexivity.
Qed.

Lemma converged_result_is_consistent_witness :
  exists res,
    calculationTask Scenario.baseline = SetResults (Some res)
    /\ (Math_abs (ex_so (extraction_of res) - st_so (stripping_of res))
        <? lit 1e-7) = true.
Proof.
  assert (H : exists res,
             calculationTask Scenario.baseline = SetResults (Some res))
    by (eexists; vm_compute; reflexivity).
  destruct H as [res H]. exists res. split; [exact H|].
  exact (proj2 (proj2 (@converged_result_is_consistent float Scenario.ref
                         Scenario.baseline res H))).
Defined.

End FloatRuns.

(** ** The round trip of the isotherm pair, run on binary64 *)

Section RoundTripRuns.

#[local] Existing Instance Scenario.ref.
Local Open Scope js_scope.

(** C9 fails on the program.  Where [getCu_aq_from_Cu_or y] is the aqueous
    concentration [- a / b] at which [g] vanishes, the cubic that
    [getCu_or_from_Cu_aq] solves has a simple root at the capacity [- f / e]
    and a double root at [- c / d]; its [term2] is 0 up to rounding, and the
    sign it is computed with decides which of the two [solveCubic] returns.

    On the form's initial inputs at V% = 15, for the loading
    [y] = 8.0719061597634756, just below the capacity: the discriminant is
    not negative, the aqueous value is 8.27..., positive, and the loading
    computed back from it is 16.06..., twice [y].

    On the dilute feed at V% = 5, for [y = - c / d] = 5.35...: the
    discriminant is 0, the aqueous value is 1.29..., positive, and the
    loading computed back from it is 2.42..., less than half of [y]. *)
Theorem isotherm_round_trip_fails :
  (let cs := extraction_constants Scenario.baseline (lit 15) in
   let y := 0x1.024d0e2592152p+3%float in
   exists x y',
     (lit 8.07 <? y) = true
     /\ (y <? lit 8.08) = true
     /\ (Formula.disc cs y <? lit 0) = false
     /\ getCu_aq_from_Cu_or cs y = JNum x
     /\ (lit 0 <? x) = true
     /\ getCu_or_from_Cu_aq cs x = JNum y'
     /\ (lit 16 <? y') = true)
  /\ (let cs := extraction_constants Scenario.dilute (lit 5) in
      let y := - c_ex cs / d_ex cs in
      exists x y',
        (lit 5.35 <? y) = true
        /\ (Formula.disc cs y <? lit 0) = false
        /\ getCu_aq_from_Cu_or cs y = JNum x
        /\ (lit 0 <? x) = true
        /\ getCu_or_from_Cu_aq cs x = JNum y'
        /\ (y' <? lit 2.43) = true).
Proof.
  split; cbv zeta; eexists; eexists; repeat split; vm_compute; reflexivity.
Qed.

(** What the same sign does to the maximum loading of an acid-free feed
    ([plsAcid = 0], [plsCu = 7]), where the feed itself is the aqueous
    concentration [- a / b]: at V% = 14.9 the maximum loading is the capacity,
    8.01...; at V% = 15 it is 16.06..., the double root. *)
Example acid_free_loading_jumps :
  exists ml1 ml2,
    getCu_or_from_Cu_aq (extraction_constants Scenario.acid_free (lit 14.9))
      (plsCu Scenario.acid_free) = JNum ml1
    /\ getCu_or_from_Cu_aq (extraction_constants Scenario.acid_free (lit 15))
         (plsCu Scenario.acid_free) = JNum ml2
    /\ (ml1 <? lit 8.02) = true
    /\ (lit 16.06 <? ml2) = true.
Proof.
  eexists; eexists; repeat split; vm_compute; reflexivity.
Qed.

End RoundTripRuns.


(** ** Theorems: what a result holds *)

Section ResultFields.

Context {T : Type} {num : Number T}.
Local Open Scope js_scope.

Variable i : @ProcessInputs T.
Variable V_percent : T.
Variable solve0 : @Solver T.

Lemma extraction_fields :
  match extraction i V_percent solve0 with
  | Return r => extraction_holds i V_percent solve0 r
  | Throw _ => True
  end.
Proof.
  unfold extraction.
  destruct (solve0 _ _ _ _) as [X1|] eqn:H1; [|exact I]. cbn [bind].
  destruct (solve0 (stage2_solver_func _ _ _ _) _ _ _) as [X2|] eqn:H2; [|exact I].
  cbn [bind].
  exists X1, X2.
  split; [exact H1|]. split; [exact H2|].
  repeat split; reflexivity.
Qed.

Lemma extraction_inversion (r : @ExtractionResult T) :
  extraction i V_percent solve0 = Return r ->
  extraction_holds i V_percent solve0 r.
Proof.
  intros H. generalize extraction_fields. rewrite H. trivial.
Qed.

Lemma stripping_fields (e : @ExtractionResult T) :
  match stripping i V_percent e with
  | Return r => stripping_holds i V_percent e r
  | Throw _ => True
  end.
Proof.
  unfold stripping.
  destruct (lo e <=? ex_so e) eqn:Hg; [exact I|].
  unfold stripping_holds. rewrite Hg.
  repeat split; reflexivity.
Qed.

Lemma stripping_inversion (e : @ExtractionResult T) (r : @StrippingResult T) :
  stripping i V_percent e = Return r -> stripping_holds i V_percent e r.
Proof.
  intros H. generalize (stripping_fields e). rewrite H. trivial.
Qed.

(** A result of [calculateAll] holds the results of the two circuits, the
    second computed from the first. *)
Lemma calculateAll_try_inversion (res : @Result T) :
  calculateAll_try i V_percent solve0 = Return res ->
  extraction i V_percent solve0 = Return (extraction_of res)
  /\ stripping i V_percent (extraction_of res) = Return (stripping_of res)
  /\ v_percent res = V_percent
  /\ so_consistency (constraints res)
     = ex_so (extraction_of res) - st_so (stripping_of res).
Proof.
  unfold calculateAll_try.
  destruct (extraction i V_percent solve0) as [ex|]; [|discriminate].
  cbn [bind].
  destruct (stripping i V_percent ex) as [st|] eqn:Hst; [|discriminate].
  cbn [bind]. intros H.
  assert (Hres : res = {| v_percent := V_percent; extraction_of := ex;
                          stripping_of := st;
                          constraints :=
                            {| so_consistency := ex_so ex - st_so st |} |})
    by congruence.
  rewrite Hres. cbn [extraction_of stripping_of v_percent constraints so_consistency].
  repeat split. exact Hst.
Qed.

End ResultFields.

(** ** Theorems: what the root finder returns *)

Section RootFinderResults.

Context {T : Type} {num : Number T}.
Local Open Scope js_scope.

Variable objective : T -> T.
Variable tolerance : T.

(** What the loop returns is the [x1] it was entered with, or a candidate
    that passed the test of line 59. *)
Lemma solve_loop_valid (m fuel : nat) (x0 f0 x1 f1 v : T) :
  solve_loop objective tolerance m fuel x0 f0 x1 f1 = Return v ->
  v = x1 \/ invalid_candidate v = false.
Proof.
  revert x0 f0 x1 f1. induction fuel as [|fuel IH]; intros x0 f0 x1 f1; simpl.
  - discriminate.
  - destruct (Math_abs f1 <? tolerance).
    + intros [= <-]. left. reflexivity.
    + destruct (_ || _) eqn:E; [discriminate|].
      intros H. apply IH in H. destruct H as [-> | H]; right.
      * exact E.
      * exact H.
Qed.

Lemma solve_valid (initialGuess : T) (maxIterations : nat) (v : T) :
  solve objective initialGuess tolerance maxIterations = Return v ->
  v = initialGuess + lit 0.1
  \/ (isNaN v = false /\ isFinite v = true /\ (v <=? lit 0) = false).
Proof.
  intros H. unfold solve in H. apply solve_loop_valid in H.
  destruct H as [-> | H]; [left; reflexivity | right].
  unfold invalid_candidate in H.
  apply orb_false_elim in H. destruct H as [H Hle].
  apply orb_false_elim in H. destruct H as [Hnan Hfin].
  apply negb_false_iff in Hfin. auto.
Qed.

(** Whatever the objective, a value [solve] returns is a point where the
    objective is below the tolerance in absolute value, and it is either the
    upper seed [initialGuess + 0.1] or a secant candidate that is not NaN,
    finite and not [<= 0]. *)
Theorem solve_result_is_valid (initialGuess : T) (maxIterations : nat) (v : T) :
  solve objective initialGuess tolerance maxIterations = Return v ->
  (Math_abs (objective v) <? tolerance) = true
  /\ (v = initialGuess + lit 0.1
      \/ (isNaN v = false /\ isFinite v = true /\ (v <=? lit 0) = false)).
Proof.
  intros H. split.
  - exact (solve_returns _ _ _ _ _ H).
  - exact (solve_valid _ _ _ H).
Qed.

(** A larger budget changes neither a value returned nor a divergence: only
    the non-convergence error depends on the budget. *)
Lemma solve_loop_more_fuel (m m' fuel k : nat) (x0 f0 x1 f1 : T) (r : exc T) :
  solve_loop objective tolerance m fuel x0 f0 x1 f1 = r ->
  r <> Throw (NotConvergedError m) ->
  solve_loop objective tolerance m' (fuel + k) x0 f0 x1 f1 = r.
Proof.
  revert x0 f0 x1 f1. induction fuel as [|fuel IH]; intros x0 f0 x1 f1; simpl.
  - intros <- H. contradiction.
  - destruct (Math_abs f1 <? tolerance); [trivial|].
    destruct (_ || _); [trivial|]. apply IH.
Qed.

(** With a larger iteration budget [solve] returns the same value, and
    diverges where it diverged. *)
Theorem solve_budget_monotone
    (initialGuess : T) (maxIterations more : nat) :
  (maxIterations <= more)%nat ->
  (forall v,
     solve objective initialGuess tolerance maxIterations = Return v ->
     solve objective initialGuess tolerance more = Return v)
  /\ (solve objective initialGuess tolerance maxIterations = Throw DivergedError ->
      solve objective initialGuess tolerance more = Throw DivergedError).
Proof.
  intros Hle.
  replace more with (maxIterations + (more - maxIterations))%nat by lia.
  unfold solve. split.
  - intros v H. apply (solve_loop_more_fuel _ _ _ _ _ _ _ _ _ H). discriminate.
  - intros H. apply (solve_loop_more_fuel _ _ _ _ _ _ _ _ _ H). discriminate.
Qed.

End RootFinderResults.


(** ** Theorems: the isotherm of the stripping circuit *)

Section IsothermForms.

Context {T : Type} {num : Number T}.

(** The isotherm function of the stripping circuit is the one of the
    extraction circuit, read at the stripping constants. *)
Lemma getCu_or_from_Cu_aq_stripping_as_extraction
    (cs : @StConstants T) (Cu_aq : T) :
  getCu_or_from_Cu_aq_stripping cs Cu_aq
  = getCu_or_from_Cu_aq (as_extraction cs) Cu_aq.
Proof. reflexivity. Qed.

End IsothermForms.


(** ** Theorems: the stages of a converged extraction *)

Section StageRelations.

Context {T : Type} {num : Number T}.
Local Open Scope js_scope.

(** An extraction result computed with [solve] satisfies the two stage
    relations within the tolerance of the stage searches: on the points of
    each stage, [|(Y_out - Y_in) - (eff / 100) * (Y_eq - Y_in)| < 1e-7],
    with [Y_out] the ordinate of [B], [Y_in] that of [C] and [Y_eq] that of
    [D]. *)
Theorem extraction_stage_efficiency
    (i : @ProcessInputs T) (V_percent : T) (e : @ExtractionResult T) :
  extraction i V_percent solve = Return e ->
  (Math_abs (stage_residual (ex_stage1 (ex_details e))) <? lit 1e-7) = true
  /\ (Math_abs (stage_residual (ex_stage2 (ex_details e))) <? lit 1e-7) = true.
Proof.
  intros H.
  destruct (extraction_inversion _ _ _ _ H)
    as (X1 & X2 & H1 & H2 & _ & _ & _ & _ & _ & Hs1 & Hs2).
  apply solve_returns in H1. apply solve_returns in H2.
  rewrite Hs1, Hs2. split; [exact H1 | exact H2].
Qed.

End StageRelations.

(** ** Theorems: the engine and the component on binary64 *)

Section CurveFields.

Context {T : Type} {num : Number T}.
Local Open Scope js_scope.

Variable i : @ProcessInputs T.
Variable V_percent : T.

(** The equilibrium curves of the two results (lines 446-450 and
    526-530). *)
Lemma extraction_curve (solve0 : @Solver T) :
  match extraction i V_percent solve0 with
  | Return r =>
      equilibriumCurve (ex_mccabeThiele r)
      = filter y_nonneg
          (Array_from 101 (fun k =>
             {| x := JNum ((plsCu i / lit 100) * k);
                y := getCu_or_from_Cu_aq (extraction_constants i V_percent)
                       ((plsCu i / lit 100) * k) |}))
  | Throw _ => True
  end.
Proof.
  unfold extraction.
  destruct (solve0 _ _ _ _) as [X1|]; [|exact I]. cbn [bind].
  destruct (solve0 _ _ _ _) as [X2|]; [|exact I]. cbn [bind].
  reflexivity.
Qed.

Lemma stripping_curve (e : @ExtractionResult T) :
  match stripping i V_percent e with
  | Return r =>
      equilibriumCurve (st_mccabeThiele r)
      = filter y_nonneg
          (Array_from 101 (fun k =>
             {| x := JNum (spCu i + ((adCu i - spCu i + lit 5) / lit 100) * k);
                y := getCu_or_from_Cu_aq_stripping
                       (stripping_constants i V_percent)
                       (spCu i + ((adCu i - spCu i + lit 5) / lit 100) * k) |}))
  | Throw _ => True
  end.
Proof.
  unfold stripping.
  destruct (lo e <=? ex_so e); [exact I|]. reflexivity.
Qed.

(** A curve holds the points of the 101 abscissas that pass the filter, in
    order: each one is drawn from an abscissa and the isotherm function, and
    its ordinate is [>= 0]. *)
Lemma curve_points (abscissa : T -> T) (isotherm : T -> jsval T) (p : @Point T) :
  In p (filter y_nonneg
          (Array_from 101 (fun k =>
             {| x := JNum (abscissa k); y := isotherm (abscissa k) |}))) ->
  (exists k, x p = JNum (abscissa k) /\ y p = isotherm (abscissa k))
  /\ (to_num (y p) >=? lit 0) = true.
Proof.
  intros H. apply filter_In in H. destruct H as [Hin Hy].
  unfold Array_from in Hin. apply in_map_iff in Hin.
  destruct Hin as (k & <- & _).
  split; [|exact Hy]. eexists. split; reflexivity.
Qed.

Lemma curve_length (abscissa : T -> T) (isotherm : T -> jsval T) :
  (List.length (filter y_nonneg
             (Array_from 101 (fun k =>
                {| x := JNum (abscissa k); y := isotherm (abscissa k) |})))
   <= 101)%nat.
Proof.
  eapply Nat.le_trans; [apply filter_length_le|].
  unfold Array_from. rewrite length_map, length_seq. apply Nat.le_refl.
Qed.

End CurveFields.

Section FloatCurves.

Context (M : MathLib).
#[local] Hint Extern 0 (Number float) => exact (FloatNumber M) : typeclass_instances.
Local Open Scope js_scope.

(** With the leading coefficient 1 the degeneracy test of [solveCubic]
    fails: what it returns is a Number. *)
Lemma solveCubic_monic (b c d : float) :
  exists v, solveCubic (lit 1) b c d = JNum v.
Proof.
  unfold solveCubic.
  replace (Math_abs (@lit float _ 1) <? lit 1e-9) with false
    by (vm_compute; reflexivity).
  destruct (_ >=? _); eexists; reflexivity.
Qed.

Lemma getCu_or_from_Cu_aq_number (cs : @ExConstants float) (Cu_aq : float) :
  exists v, getCu_or_from_Cu_aq cs Cu_aq = JNum v.
Proof.
  unfold getCu_or_from_Cu_aq.
  destruct (Cu_aq <=? lit 0); [eexists; reflexivity|].
  apply solveCubic_monic.
Qed.

Lemma getCu_or_from_Cu_aq_stripping_number
    (cs : @StConstants float) (Cu_aq : float) :
  exists v, getCu_or_from_Cu_aq_stripping cs Cu_aq = JNum v.
Proof.
  rewrite getCu_or_from_Cu_aq_stripping_as_extraction.
  apply getCu_or_from_Cu_aq_number.
Qed.

(** On binary64, with any [Math] library: the isotherm functions never
    return [undefined] or [null], and every point of the two equilibrium
    curves of a result has two Numbers for coordinates, the ordinate
    [>= 0] (so not NaN); a curve has at most 101 points. *)
Theorem equilibrium_curves_are_plottable
    (i : @ProcessInputs float) (V_percent : float) (solve0 : @Solver float)
    (res : @Result float) :
  calculateAll_try i V_percent solve0 = Return res ->
  let ec := equilibriumCurve (ex_mccabeThiele (extraction_of res)) in
  let sc := equilibriumCurve (st_mccabeThiele (stripping_of res)) in
  Forall plottable ec /\ (List.length ec <= 101)%nat
  /\ Forall plottable sc /\ (List.length sc <= 101)%nat.
Proof.
  intros H. cbv zeta.
  destruct (calculateAll_try_inversion _ _ _ _ H) as (He & Hs & _).
  pose proof (extraction_curve i V_percent solve0) as Hec. rewrite He in Hec.
  pose proof (stripping_curve i V_percent (extraction_of res)) as Hsc.
  rewrite Hs in Hsc.
  rewrite Hec, Hsc.
  split; [|split; [apply curve_length|split; [|apply curve_length]]].
  - apply Forall_forall. intros p Hp.
    apply (curve_points (fun k => ((plsCu i / lit 100) * k)%js)
             (getCu_or_from_Cu_aq (extraction_constants i V_percent))) in Hp.
    destruct Hp as [(k & Hx & Hy) Hge].
    destruct (getCu_or_from_Cu_aq_number (extraction_constants i V_percent)
                ((plsCu i / lit 100) * k)%js) as [v Hv].
    rewrite Hv in Hy. rewrite Hy in Hge. cbn [to_num] in Hge.
    eexists. exists v. split; [exact Hx|]. split; [exact Hy | exact Hge].
  - apply Forall_forall. intros p Hp.
    apply (curve_points
             (fun k => (spCu i + ((adCu i - spCu i + lit 5) / lit 100) * k)%js)
             (getCu_or_from_Cu_aq_stripping (stripping_constants i V_percent)))
      in Hp.
    destruct Hp as [(k & Hx & Hy) Hge].
    rewrite getCu_or_from_Cu_aq_stripping_as_extraction in Hy.
    destruct (getCu_or_from_Cu_aq_number
                (as_extraction (stripping_constants i V_percent))
                (spCu i + ((adCu i - spCu i + lit 5) / lit 100) * k)%js) as [v Hv].
    rewrite Hv in Hy. rewrite Hy in Hge. cbn [to_num] in Hge.
    eexists. exists v. split; [exact Hx|]. split; [exact Hy | exact Hge].
Qed.

(** On binary64, with any [Math] library and any [solve]: of the values a
    result holds for the display and the export to call [toFixed] on, only
    the abscissa of point [D] of an extraction stage can be something else
    than a Number, and then it is [null]: the maximum loading [ml] is a
    Number, the points [A], [B], [C] of the four stages and [D] of the
    stripping stages have Numbers for coordinates, and [D] of an extraction
    stage has a Number for ordinate. *)
Theorem result_values_are_numbers
    (i : @ProcessInputs float) (V_percent : float) (solve0 : @Solver float)
    (res : @Result float) :
  calculateAll_try i V_percent solve0 = Return res ->
  (exists v, ml (extraction_of res) = JNum v)
  /\ (forall st,
        In st [ex_stage1 (ex_details (extraction_of res));
               ex_stage2 (ex_details (extraction_of res))] ->
        numeric (A st) /\ numeric (B st) /\ numeric (C st)
        /\ (exists v, y (D st) = JNum v)
        /\ (x (D st) = JNull \/ exists v, x (D st) = JNum v))
  /\ (forall st,
        In st [st_stage1 (st_details (stripping_of res));
               st_stage2 (st_details (stripping_of res))] ->
        numeric (A st) /\ numeric (B st) /\ numeric (C st) /\ numeric (D st)).
Proof.
  intros H.
  destruct (calculateAll_try_inversion _ _ _ _ H) as (He & Hs & _).
  destruct (extraction_returns _ _ _ _ He) as [Hml _].
  destruct (extraction_inversion _ _ _ _ He)
    as (X1 & X2 & _ & _ & _ & _ & _ & _ & _ & Hs1 & Hs2).
  destruct (stripping_inversion _ _ _ _ Hs) as (_ & _ & _ & _ & _ & Ht1 & Ht2).
  cbv zeta in Ht1, Ht2.
  assert (Hpt : forall a b : float, numeric (pt a b)).
  { intros a b. exists a, b. split; reflexivity. }
  assert (Haq : forall cs (v : float),
            getCu_aq_from_Cu_or cs v = JNull
            \/ exists w, getCu_aq_from_Cu_or cs v = JNum w).
  { intros cs v. unfold getCu_aq_from_Cu_or.
    destruct (v <=? lit 0); [right; eexists; reflexivity|].
    destruct (_ <? lit 0); [left; reflexivity | right; eexists; reflexivity]. }
  split; [rewrite Hml; apply getCu_or_from_Cu_aq_number|].
  split.
  - intros st [<- | [<- | []]]; [rewrite Hs1 | rewrite Hs2]; cbn [A B C D x y];
      (split; [apply Hpt|]; split; [apply Hpt|]; split; [apply Hpt|];
       split; [apply getCu_or_from_Cu_aq_number | apply Haq]).
  - intros st [<- | [<- | []]]; [rewrite Ht1 | rewrite Ht2]; cbn [A B C D];
      (split; [apply Hpt|]; split; [apply Hpt|]; split; [apply Hpt|]);
      match goal with
      | |- numeric {| x := JNum ?a; y := getCu_or_from_Cu_aq_stripping ?cs ?v |} =>
          destruct (getCu_or_from_Cu_aq_stripping_number cs v) as [w Hw];
          exists a, w; split; [reflexivity | exact Hw]
      end.
Qed.

End FloatCurves.

(** ** Theorems: the outer search on failed trials, and the component *)

Section SecantStates.

Context {T : Type} {num : Number T}.
Local Open Scope js_scope.

(** Every state of the iteration holds the objective's values at its two
    points. *)
Lemma secant_state_values (objective : T -> T) (initial_guess : T) (k : nat) :
  s_f0 (secant_state objective initial_guess k)
  = objective (s_x0 (secant_state objective initial_guess k))
  /\ s_f1 (secant_state objective initial_guess k)
     = objective (s_x1 (secant_state objective initial_guess k)).
Proof.
  induction k as [|k [IH0 IH1]].
  - split; reflexivity.
  - unfold secant_state in *. rewrite Nat.iter_succ.
    unfold secant_shift at 1 3 5 7. cbn [s_x0 s_f0 s_x1 s_f1].
    split; [exact IH1 | reflexivity].
Qed.

End SecantStates.

Section FloatSentinel.

Local Open Scope float_scope.

Lemma is_finite_of_SF_infinity (v : float) (s : bool) :
  Prim2SF v = S754_infinity s -> is_finite v = false.
Proof.
  intros H. unfold is_finite, is_nan, is_infinity.
  rewrite !FloatAxioms.eqb_spec, FloatAxioms.abs_spec, H.
  destruct s; reflexivity.
Qed.

(** [r / 0] is NaN or an infinity, and so is [x - r / 0]. *)
Lemma SF_sub_div_zero (x r : float) :
  Prim2SF (x - r / 0) = S754_nan
  \/ exists s, Prim2SF (x - r / 0) = S754_infinity s.
Proof.
  rewrite FloatAxioms.sub_spec, FloatAxioms.div_spec.
  replace (Prim2SF 0) with (S754_zero false) by reflexivity.
  destruct (Prim2SF r) as [s|s| |s m e], (Prim2SF x) as [s'|s'| |s' m' e'];
    cbn; try (left; reflexivity);
    try (destruct s, s'); try (destruct s); try (destruct s'); cbn;
    try (left; reflexivity); right; eexists; reflexivity.
Qed.

Context (M : MathLib).
#[local] Hint Extern 0 (Number float) => exact (FloatNumber M) : typeclass_instances.
Local Open Scope js_scope.

(** Between two points where the objective is the sentinel [1e9] the secant
    candidate is [x1 - (1e9 * (x1 - x0)) / 0]: it cannot be taken. *)
Lemma sentinel_candidate_invalid (s : @SecantState float) :
  s_f0 s = lit 1e9 -> s_f1 s = lit 1e9 ->
  invalid_candidate (secant_candidate s) = true.
Proof.
  intros E0 E1.
  unfold secant_candidate, invalid_candidate. rewrite E0, E1.
  generalize (s_x0 s) (s_x1 s). intros x0 x1.
  replace (@lit float _ 1e9 - lit 1e9) with 0%float by (vm_compute; reflexivity).
  cbn [lit sub mul div isNaN isFinite leb FloatNumber].
  destruct (SF_sub_div_zero x1 (float_lit 1e9 * (x1 - x0))%float) as [H | [sg H]].
  - rewrite (is_nan_of_SF _ H). reflexivity.
  - rewrite (is_finite_of_SF_infinity _ _ H). cbn [negb].
    apply orb_true_iff. left. apply orb_true_r.
Qed.

(** From a state that holds the sentinel twice, [solve] throws the
    divergence error. *)
Lemma sentinel_pair_diverges
    (objective : float -> float) (initial_guess : float) (n k : nat) :
  (k < n)%nat ->
  (forall j, (j < k)%nat -> goes_on objective initial_guess (lit 1e-7) j) ->
  s_f0 (secant_state objective initial_guess k) = lit 1e9 ->
  s_f1 (secant_state objective initial_guess k) = lit 1e9 ->
  solve objective initial_guess (lit 1e-7) n = Throw DivergedError.
Proof.
  intros Hk Hgo E0 E1.
  rewrite solve_run_from.
  replace n with (k + S (n - S k))%nat at 2 by lia.
  rewrite run_from_steps by exact Hgo.
  apply run_from_invalid.
  - unfold converged. unfold secant_state in E1. rewrite E1.
    apply sentinel_not_converged.
  - apply sentinel_candidate_invalid; assumption.
Qed.

Lemma objective_of_null (inputs : @ProcessInputs float) (V_percent : float) :
  calculateAll inputs V_percent solve = None ->
  objectiveFunction inputs V_percent = lit 1e9.
Proof. intros H. unfold objectiveFunction. rewrite H. reflexivity. Qed.

(** When the evaluation fails at both points of a state the outer search
    has reached, the two values it holds are the sentinel, the next
    candidate cannot be taken, and the run ends with the divergence error:
    so it does, in particular, when the evaluation fails at both seeds
    [17.1 - 0.1] and [17.1 + 0.1]. *)
Theorem consecutive_failures_diverge (inputs : @ProcessInputs float) (k : nat) :
  (k < 100)%nat ->
  (forall j, (j < k)%nat ->
     goes_on (objectiveFunction inputs) (lit 17.1) (lit 1e-7) j) ->
  calculateAll inputs
    (s_x0 (secant_state (objectiveFunction inputs) (lit 17.1) k)) solve = None ->
  calculateAll inputs
    (s_x1 (secant_state (objectiveFunction inputs) (lit 17.1) k)) solve = None ->
  calculationTask inputs = SetError DivergedError.
Proof.
  intros Hk Hgo H0 H1.
  apply calculationTask_search_error.
  apply (sentinel_pair_diverges (objectiveFunction inputs) (lit 17.1) 100 k Hk Hgo).
  - rewrite (proj1 (secant_state_values _ _ _)). exact (objective_of_null _ _ H0).
  - rewrite (proj2 (secant_state_values _ _ _)). exact (objective_of_null _ _ H1).
Qed.

End FloatSentinel.

Section FloatPosted.

Context (M : MathLib).
#[local] Hint Extern 0 (Number float) => exact (FloatNumber M) : typeclass_instances.
Local Open Scope js_scope.

(** On binary64, with any [Math] library, the result of a converged run
    holds numbers where NaN would pass the tests of the source (a
    comparison with NaN is false): the optimum is a number with
    [0 < V% <= 50]; the loaded organic, the raffinate and the stripped
    organic of both circuits are not NaN; and the loaded organic is
    strictly above the stripped organic of the extraction circuit. *)
Theorem posted_result_is_numeric
    (inputs : @ProcessInputs float) (res : @Result float) :
  calculationTask inputs = SetResults (Some res) ->
  isNaN (v_percent res) = false
  /\ (lit 0 <? v_percent res) = true
  /\ (v_percent res <=? lit 50) = true
  /\ isNaN (lo (extraction_of res)) = false
  /\ isNaN (ex_so (extraction_of res)) = false
  /\ isNaN (raff (extraction_of res)) = false
  /\ isNaN (st_so (stripping_of res)) = false
  /\ (ex_so (extraction_of res) <? lo (extraction_of res)) = true.
Proof.
  intros H.
  destruct (calculationTask_result _ _ H) as (v & Hs & Hr & Hc).
  destruct (calculateAll_try_inversion inputs v solve res Hc)
    as (He & Hst & Hv & Hcons).
  pose proof (solve_returns _ _ _ _ _ Hs) as Hres.
  pose proof (solve_valid _ _ _ _ _ Hs) as Hvalid.
  assert (Hnum : isNaN v = false).
  { destruct Hvalid as [-> | [Hn _]]; [vm_compute; reflexivity | exact Hn]. }
  apply orb_false_elim in Hr. destruct Hr as [Hr0 Hr50].
  rewrite (objective_of_result _ _ _ Hc), Hcons in Hres.
  cbn [isNaN ltb leb sub Math_abs lit FloatNumber] in *.
  apply ltb_number in Hres. destruct Hres as [Hres _].
  apply abs_number, sub_number in Hres. destruct Hres as [Hex Hstr].
  destruct (stripping_inversion _ _ _ _ Hst) as (Hg & _ & Hso & _).
  cbv zeta in Hso. cbn [leb sub mul div FloatNumber] in Hg, Hso.
  assert (Hlo : is_nan (lo (extraction_of res)) = false).
  { rewrite Hso in Hstr.
    apply sub_number in Hstr. destruct Hstr as [Hy1 _].
    apply sub_number in Hy1. destruct Hy1 as [Hl _]. exact Hl. }
  destruct (extraction_inversion _ _ _ _ He)
    as (X1 & X2 & _ & _ & _ & Hraff & Hexso & _).
  cbn [sub mul div FloatNumber] in Hexso.
  assert (Hra : is_nan (raff (extraction_of res)) = false).
  { rewrite Hexso in Hex.
    apply sub_number in Hex. destruct Hex as [_ Hq].
    apply div_number in Hq. destruct Hq as [Hd _].
    apply sub_number in Hd. destruct Hd as [_ Hx2].
    rewrite Hraff. exact Hx2. }
  rewrite Hv.
  split; [exact Hnum|].
  split.
  { rewrite (leb_ltb v (float_lit 0)) in Hr0;
      [|exact Hnum | vm_compute; reflexivity].
    apply negb_false_iff in Hr0. exact Hr0. }
  split.
  { rewrite (leb_ltb v (float_lit 50));
      [|exact Hnum | vm_compute; reflexivity].
    rewrite Hr50. reflexivity. }
  split; [exact Hlo|]. split; [exact Hex|]. split; [exact Hra|].
  split; [exact Hstr|].
  rewrite (leb_ltb _ _ Hlo Hex) in Hg.
  apply negb_false_iff in Hg. exact Hg.
Qed.

End FloatPosted.

Section FloatComponent.

Context (M : MathLib).
#[local] Hint Extern 0 (Number float) => exact (FloatNumber M) : typeclass_instances.
Local Open Scope js_scope.

Variable parseFloat : string -> float.

(** [v || 0] is never NaN. *)
Lemma or_zero_number (v : float) : isNaN (Component.or_zero v) = false.
Proof.
  unfold Component.or_zero, Component.truthy.
  destruct (isNaN v) eqn:E; cbn [orb negb].
  - vm_compute. reflexivity.
  - destruct (_ && _); cbn [negb]; [vm_compute; reflexivity | exact E].
Qed.

Lemma spread_with_number (name key : string) (v old : float) :
  isNaN v = false -> isNaN old = false ->
  isNaN (Component.spread_with name v key old) = false.
Proof.
  intros Hv Ho. unfold Component.spread_with.
  destruct (String.eqb name key); assumption.
Qed.

Lemma handleInputChange_numbers (name value : string) (st : Component.State) :
  every_input (fun v => isNaN v = false) (Component.inputs st) ->
  every_input (fun v => isNaN v = false)
    (Component.inputs (Component.handleInputChange parseFloat name value st)).
Proof.
  unfold every_input.
  intros (H1 & H2 & H3 & H4 & H5 & H6 & H7 & H8 & H9 & H10 & H11 & H12).
  pose proof (or_zero_number (parseFloat value)) as Hv.
  unfold Component.handleInputChange, Component.set_property.
  cbn [Component.inputs plsFlow plsCu plsAcid percentageML o_a_ex effE1 effE2
       spCu spAcid adCu effS1 effS2].
  repeat split; apply spread_with_number; assumption.
Qed.

(** Whatever is typed into the form, in whatever fields and order, the
    inputs the component holds are never NaN: an entry [parseFloat] makes
    NaN of (or that is zero) is stored as 0. *)
Theorem form_inputs_are_never_nan (events : list (string * string)) :
  every_input (fun v => isNaN v = false)
    (Component.inputs
       (fold_left
          (fun st ev => Component.handleInputChange parseFloat (fst ev) (snd ev) st)
          events Component.initial_state))
  /\ (forall name value st,
        isNaN (parseFloat value) = true ->
        Component.inputs (Component.handleInputChange parseFloat name value st)
        = Component.set_property (Component.inputs st) name (lit 0)).
Proof.
  split.
  - assert (H0 : every_input (fun v => isNaN v = false)
                   (Component.inputs (@Component.initial_state float _))).
    { unfold every_input. repeat split; vm_compute; reflexivity. }
    revert H0. generalize (@Component.initial_state float _).
    induction events as [|ev events IH]; intros st H; [exact H|].
    cbn [fold_left]. apply IH. apply handleInputChange_numbers. exact H.
  - intros name value st H.
    unfold Component.handleInputChange, Component.or_zero, Component.truthy.
    rewrite H. reflexivity.
Qed.

(** What [calculationTask] posts as a result is never [null]. *)
Lemma calculationTask_posts_result
    (inputs : @ProcessInputs float) (r : option (@Result float)) :
  calculationTask inputs = SetResults r -> exists res, r = Some res.
Proof.
  unfold calculationTask, calculationTask_try.
  destruct (solve (objectiveFunction inputs) (lit 17.1) (lit 1e-7) 100)
    as [v|] eqn:Hs; cbn [bind]; [|discriminate].
  unfold finalCalculation.
  destruct (_ || _); [discriminate|].
  destruct (search_result_evaluates M _ _ _ _ Hs) as [res Hres].
  rewrite (calculateAll_of_return _ _ _ Hres).
  intros E. exists res. congruence.
Qed.

(** A click on the button, through to the end of the calculation: neither
    the placeholder nor the progress message is left on screen, and exactly
    one of the other two panels is: the results of the converged run, with
    the export button enabled, or the message of one of the three errors
    that reach the component, with the export button disabled. *)
Theorem run_shows_results_or_error (st : @Component.State float) :
  let p := Component.render (Component.run st) in
  Component.placeholder p = false
  /\ Component.progress p = false
  /\ ((exists res,
         calculationTask (Component.inputs st) = SetResults (Some res)
         /\ Component.summary p = Some res
         /\ Component.message p = None
         /\ Component.export_disabled (Component.run st) = false)
      \/ (exists e,
            calculationTask (Component.inputs st) = SetError e
            /\ (e = DivergedError \/ e = NotConvergedError 100
                \/ e = OutOfRangeError)
            /\ Component.message p = Some e
            /\ Component.summary p = None
            /\ Component.export_disabled (Component.run st) = true)).
Proof.
  cbv zeta. unfold Component.run.
  destruct (calculationTask (Component.inputs st)) as [r|e] eqn:E.
  - destruct (calculationTask_posts_result _ _ E) as [res ->].
    split; [reflexivity|]. split; [reflexivity|].
    left. exists res. repeat split; reflexivity.
  - split; [reflexivity|]. split; [reflexivity|].
    right. exists e. split; [reflexivity|].
    split; [exact (calculationTask_errors _ _ E)|].
    repeat split; reflexivity.
Qed.

End FloatComponent.

(** ** The theorems above at concrete inputs *)

Section FloatInstances.

#[local] Existing Instance Scenario.ref.
Local Open Scope js_scope.

Lemma solve_result_is_valid_witness :
  exists v,
    solve (Scenario.stage1_at Scenario.baseline)
      (plsCu Scenario.baseline * lit 0.3) (lit 1e-7) 100 = Return v
    /\ (Math_abs (Scenario.stage1_at Scenario.baseline v) <? lit 1e-7) = true
    /\ (v = plsCu Scenario.baseline * lit 0.3 + lit 0.1
        \/ (isNaN v = false /\ isFinite v = true /\ (v <=? lit 0) = false)).
Proof.
  eexists. split; [vm_compute; reflexivity|].
  apply (@solve_result_is_valid float Scenario.ref
           (Scenario.stage1_at Scenario.baseline) (lit 1e-7)
           (plsCu Scenario.baseline * lit 0.3) 100).
  vm_compute. reflexivity.
Defined.

(** The stage-1 search on the initial inputs returns the same value with a
    budget of 10 and with the budget of 100 the program uses. *)
Lemma solve_budget_monotone_witness :
  exists v,
    solve (Scenario.stage1_at Scenario.baseline)
      (plsCu Scenario.baseline * lit 0.3) (lit 1e-7) 10 = Return v
    /\ solve (Scenario.stage1_at Scenario.baseline)
         (plsCu Scenario.baseline * lit 0.3) (lit 1e-7) 100 = Return v.
Proof.
  eexists. split; [vm_compute; reflexivity|].
  apply (proj1 (@solve_budget_monotone float Scenario.ref
                  (Scenario.stage1_at Scenario.baseline) (lit 1e-7)
                  (plsCu Scenario.baseline * lit 0.3) 10 100 ltac:(lia))).
  vm_compute. reflexivity.
Defined.

Lemma extraction_stage_efficiency_witness :
  exists e,
    extraction Scenario.baseline Scenario.V0 solve = Return e
    /\ (Math_abs (stage_residual (ex_stage1 (ex_details e))) <? lit 1e-7) = true
    /\ (Math_abs (stage_residual (ex_stage2 (ex_details e))) <? lit 1e-7) = true.
Proof.
  eexists. split; [vm_compute; reflexivity|].
  apply (@extraction_stage_efficiency float Scenario.ref
           Scenario.baseline Scenario.V0).
  vm_compute. reflexivity.
Defined.

Lemma equilibrium_curves_are_plottable_witness :
  exists res,
    calculateAll_try Scenario.baseline Scenario.V0 solve = Return res
    /\ Forall plottable (equilibriumCurve (ex_mccabeThiele (extraction_of res)))
    /\ Forall plottable (equilibriumCurve (st_mccabeThiele (stripping_of res))).
Proof.
  eexists. split; [vm_compute; reflexivity|].
  match goal with
  | |- Forall _ (equilibriumCurve (ex_mccabeThiele (extraction_of ?res))) /\ _ =>
      pose proof (equilibrium_curves_are_plottable RefMath.lib
                    Scenario.baseline Scenario.V0 solve res) as H
  end.
  cbv zeta in H.
  assert (Hres : calculateAll_try Scenario.baseline Scenario.V0 solve = Return _)
    by (vm_compute; reflexivity).
  split; [exact (proj1 (H Hres)) | exact (proj1 (proj2 (proj2 (H Hres))))].
Defined.

Lemma result_values_are_numbers_witness :
  exists res,
    calculateAll_try Scenario.baseline Scenario.V0 solve = Return res
    /\ exists v, ml (extraction_of res) = JNum v.
Proof.
  eexists. split; [vm_compute; reflexivity|].
  match goal with
  | |- exists v, ml (extraction_of ?res) = JNum v =>
      pose proof (result_values_are_numbers RefMath.lib
                    Scenario.baseline Scenario.V0 solve res) as H
  end.
  assert (Hres : calculateAll_try Scenario.baseline Scenario.V0 solve = Return _)
    by (vm_compute; reflexivity).
  exact (proj1 (H Hres)).
Defined.

(** Without copper in the feed the evaluation fails at both seeds of the
    outer search: the run ends with the divergence error. *)
Lemma consecutive_failures_diverge_witness :
  calculationTask Scenario.no_copper = SetError DivergedError.
Proof.
  apply (consecutive_failures_diverge RefMath.lib Scenario.no_copper 0).
  - lia.
  - intros j Hj. lia.
  - vm_compute. reflexivity.
  - vm_compute. reflexivity.
Defined.

(** The converged run on the form's initial inputs. *)
Lemma posted_result_is_numeric_witness :
  exists res,
    calculationTask Scenario.baseline = SetResults (Some res)
    /\ isNaN (v_percent res) = false
    /\ (lit 0 <? v_percent res) = true
    /\ (v_percent res <=? lit 50) = true.
Proof.
  eexists. split; [vm_compute; reflexivity|].
  match goal with
  | |- isNaN (v_percent ?res) = false /\ _ =>
      pose proof (posted_result_is_numeric RefMath.lib Scenario.baseline res) as H
  end.
  assert (Hres : calculationTask Scenario.baseline = SetResults (Some _))
    by (vm_compute; reflexivity).
  destruct (H Hres) as (H1 & H2 & H3 & _).
  split; [exact H1|]. split; [exact H2 | exact H3].
Defined.

End FloatInstances.
